(** * Alpaca account/position access layer: a shallow embedding

    The development follows the three source files of the repository:
    - [alpaca_cli.py]: credential resolution, the two data functions, the
      four command-line operations and the argument dispatch;
    - [Alpaca.py] and [api.py]: the two HTTP front-ends.

    Python code is embedded as computations in a small state-and-exception
    monad.  The state holds what the program writes to standard output and
    the requests it sends to the remote provider; an exception is a value of
    the type [exn].  Python values that cross the provider boundary are
    values of [pyval]; provider entities are attribute maps.

    Two things lie outside the repository and are taken as parameters: the
    answers of the remote provider ([Provider]) and the floating-point part
    of the Python runtime ([PyRuntime]).  Every theorem holds for all of
    them; the module [DecimalRuntime] gives one runtime on which the
    program can be run on sample inputs. *)

From stdpp Require Import gmap strings list pretty.
From Stdlib Require Import ZArith Ascii.

Local Open Scope Z_scope.
Local Set Warnings "-register-all".

(** ** Exceptions and outcomes *)

(** The exception classes the program can meet.  [APIError] is the provider
    library's error class; its text is the provider's message.  [KeyError]
    carries the missing key.  [OtherException] stands for any other class
    derived from [Exception] and outside [APIError] (for instance a transport
    error raised below the provider library). *)
Inductive exn : Type :=
  | APIError (msg : string)
  | KeyError (key : string)
  | ValueError (msg : string)
  | TypeError (msg : string)
  | AttributeError (cls attr : string)
  | OverflowError (msg : string)
  | ImportError (name modname : string)
  | SystemExit (code : Z)
  | OtherException (cls msg : string).

(** [except APIError] *)
Definition is_APIError (e : exn) : bool :=
  match e with APIError _ => true | _ => false end.

(** [except Exception]: every class above but [SystemExit], which derives
    from [BaseException] only. *)
Definition is_Exception (e : exn) : bool :=
  match e with SystemExit _ => false | _ => true end.

Inductive outcome (A : Type) : Type :=
  | Return (a : A)
  | Raise (e : exn).
Arguments Return {A} a.
Arguments Raise {A} e.

Definition outcome_bind {A B} (o : outcome A) (k : A -> outcome B) : outcome B :=
  match o with
  | Return a => k a
  | Raise e => Raise e
  end.

(** ** Strings *)

Module PyStr.

Definition chars (s : string) : list ascii := String.list_ascii_of_string s.
Definition of_chars (l : list ascii) : string := String.string_of_list_ascii l.

Fixpoint join (sep : string) (l : list string) : string :=
  match l with
  | [] => ""
  | [s] => s
  | s :: l' => s +:+ sep +:+ join sep l'
  end.

Definition repeat_char (c : ascii) (n : nat) : string := of_chars (replicate n c).

(** A [str] is kept as the bytes of its UTF-8 text.  A character is one
    leading byte and the continuation bytes (10xxxxxx) after it. *)
Definition is_continuation (c : ascii) : bool :=
  bool_decide (128 <= N_of_ascii c < 192)%N.

(** [len(s)]: the number of characters *)
Definition length (s : string) : nat :=
  List.length (filter (fun c => negb (is_continuation c)) (chars s)).

(** the bytes of the first [n] characters *)
Fixpoint take_chars (n : nat) (l : list ascii) : list ascii :=
  match l with
  | [] => []
  | c :: l' =>
      if is_continuation c then c :: take_chars n l'
      else match n with
           | O => []
           | S n' => c :: take_chars n' l'
           end
  end.

(** the characters, each with its bytes *)
Fixpoint code_points (l : list ascii) : list (list ascii) :=
  match l with
  | [] => []
  | c :: l' =>
      match code_points l' with
      | (d :: ds) :: rest =>
          if is_continuation d then (c :: d :: ds) :: rest
          else [c] :: (d :: ds) :: rest
      | rest => [c] :: rest
      end
  end.

Definition contains_char (c : ascii) (s : string) : bool :=
  bool_decide (c ∈ chars s).

Definition backslash : ascii := "092"%char.
Definition dquote : ascii := "034"%char.
Definition squote : ascii := "039"%char.

Definition hex_digit (n : N) : ascii :=
  match n with
  | 10 => "a" | 11 => "b" | 12 => "c" | 13 => "d" | 14 => "e" | 15 => "f"
  | _ => pretty_N_char n
  end%N%char.

(** One character of [repr(s)] with [q] the chosen quote.  Characters
    outside the ASCII range are kept, as Python keeps printable ones. *)
Definition repr_char (q : ascii) (c : ascii) : string :=
  let n := N_of_ascii c in
  if decide (c = q) then of_chars [backslash; c]
  else if decide (c = backslash) then of_chars [backslash; backslash]
  else if decide (n = 10)%N then of_chars [backslash; "n"%char]
  else if decide (n = 13)%N then of_chars [backslash; "r"%char]
  else if decide (n = 9)%N then of_chars [backslash; "t"%char]
  else if decide (n < 32 ∨ n = 127)%N
       then of_chars [backslash; "x"%char; hex_digit (n / 16); hex_digit (n mod 16)]
  else of_chars [c].

(** [repr(s)] for a [str]: single quotes, unless the text has a single
    quote and no double quote. *)
Definition repr (s : string) : string :=
  let q := if contains_char squote s && negb (contains_char dquote s)
           then dquote else squote in
  String q (String.concat "" (repr_char q <$> chars s)) +:+ of_chars [q].

(** [needle in hay] for two [str] values *)
Fixpoint is_prefix (p s : list ascii) : bool :=
  match p, s with
  | [], _ => true
  | a :: p', b :: s' => bool_decide (a = b) && is_prefix p' s'
  | _ :: _, [] => false
  end.

Fixpoint is_infix (p s : list ascii) : bool :=
  is_prefix p s ||
  match s with
  | [] => false
  | _ :: s' => is_infix p s'
  end.

End PyStr.

(** ** Format specifications

    [f"{value:spec}"] calls [format(value, spec)].  For [str], [int], [bool]
    and [float] a non-empty [spec] is first read by one parser, embedded here
    as [parse_format_spec], after CPython 3.11 (which also gives the texts of
    the error messages). *)

Module Format.

Inductive thousands : Type := NoSep | Comma | Underscore | UnderscoreFour.

Record format_spec : Type := mk_format_spec {
  fill_char : ascii;
  align : ascii;
  alternate : bool;
  no_neg_0 : bool;
  sign : option ascii;
  width : option Z;
  thousands_separators : thousands;
  precision : option Z;
  type : option ascii }.

Definition is_alignment_token (c : ascii) : bool :=
  match c with
  | "<" | ">" | "=" | "^" => true
  | _ => false
  end%char.

Definition is_sign_element (c : ascii) : bool :=
  match c with
  | " " | "+" | "-" => true
  | _ => false
  end%char.

Definition digit_value (c : ascii) : option Z :=
  Z.of_nat <$> Ascii.is_nat c.

Definition PY_SSIZE_T_MAX : Z := 2 ^ 63 - 1.

(** [get_integer]: the leading decimal digits of [s], their value, and the
    rest of [s]; an error once the value would exceed [PY_SSIZE_T_MAX]. *)
Fixpoint get_integer_go (acc : Z) (numdigits : nat) (s : list ascii)
  : outcome (Z * nat * list ascii) :=
  match s with
  | [] => Return (acc, numdigits, [])
  | c :: s' =>
      match digit_value c with
      | None => Return (acc, numdigits, s)
      | Some d =>
          if decide (acc > (PY_SSIZE_T_MAX - d) / 10)
          then Raise (ValueError "Too many decimal digits in format string")
          else get_integer_go (acc * 10 + d) (S numdigits) s'
      end
  end.

Definition get_integer (s : list ascii) : outcome (Z * nat * list ascii) :=
  get_integer_go 0 0%nat s.

Definition hex_of_N (n : N) : string :=
  if decide (n < 16)%N then PyStr.of_chars [PyStr.hex_digit n]
  else PyStr.of_chars [PyStr.hex_digit (n / 16); PyStr.hex_digit (n mod 16)].

(** how an error message shows a presentation type *)
Definition show_type (c : ascii) : string :=
  let n := N_of_ascii c in
  if decide (32 < n ∧ n < 128)%N then PyStr.of_chars [c]
  else PyStr.of_chars [PyStr.backslash; "x"%char] +:+ hex_of_N n.

Definition show_sep (t : thousands) : string :=
  match t with Comma => "," | _ => "_" end.

Definition invalid_thousands_separator_type (t : thousands) (ty : option ascii) : exn :=
  ValueError ("Cannot specify '" +:+ show_sep t +:+ "' with '" +:+
              show_type (default "000"%char ty) +:+ "'.").

Definition unknown_presentation_type (ty : option ascii) (tp_name : string) : exn :=
  ValueError ("Unknown format code '" +:+ show_type (default "000"%char ty) +:+
              "' for object of type '" +:+ tp_name +:+ "'").

Definition take_if (p : ascii -> bool) (s : list ascii) : bool * list ascii :=
  match s with
  | c :: s' => if p c then (true, s') else (false, s)
  | [] => (false, s)
  end.

Definition is_char (a : ascii) (c : ascii) : bool := bool_decide (c = a).

Definition head_is (a : ascii) (s : list ascii) : bool :=
  match s with c :: _ => is_char a c | [] => false end.

(** [parse_internal_render_format_spec] *)
Definition parse_format_spec (tp_name : string) (default_type : option ascii)
    (default_align : ascii) (spec : string) : outcome format_spec :=
  let s0 := PyStr.chars spec in
  (* fill and alignment *)
  let '(fill, fill_specified, al, align_specified, s1) :=
    match s0 with
    | c0 :: c1 :: rest =>
        if is_alignment_token c1 then (c0, true, c1, true, rest)
        else if is_alignment_token c0 then (" "%char, false, c0, true, c1 :: rest)
        else (" "%char, false, default_align, false, s0)
    | [c0] =>
        if is_alignment_token c0 then (" "%char, false, c0, true, [])
        else (" "%char, false, default_align, false, s0)
    | [] => (" "%char, false, default_align, false, s0)
    end in
  (* sign, z, # *)
  let '(sgn, s2) :=
    match s1 with
    | c :: rest => if is_sign_element c then (Some c, rest) else (None, s1)
    | [] => (None, s1)
    end in
  let '(z, s3) := take_if (is_char "z") s2 in
  let '(alt, s4) := take_if (is_char "#") s3 in
  (* the 0 flag *)
  let '(fill, al, s5) :=
    if negb fill_specified && head_is "0" s4
    then ("0"%char,
          (if negb align_specified && is_char ">" default_align then "="%char else al),
          tail s4)
    else (fill, al, s4) in
  (* width *)
  outcome_bind (get_integer s5) (fun '(w, consumed, s6) =>
  let wd := if decide (consumed = 0%nat) then None else Some w in
  (* grouping *)
  let '(comma, s7) := take_if (is_char ",") s6 in
  let sep := if comma then Comma else NoSep in
  if head_is "_" s7 && comma
  then Raise (ValueError "Cannot specify both ',' and '_'.")
  else
  let '(under, s8) := take_if (is_char "_") s7 in
  let sep := if under then Underscore else sep in
  if head_is "," s8 && under
  then Raise (ValueError "Cannot specify both ',' and '_'.")
  else
  (* precision *)
  outcome_bind
    (if head_is "." s8
     then outcome_bind (get_integer (tail s8)) (fun '(p, consumed, s9) =>
            if decide (consumed = 0%nat)
            then Raise (ValueError "Format specifier missing precision")
            else Return (Some p, s9))
     else Return (None, s8))
    (fun '(prec, s9) =>
  (* presentation type *)
  match s9 with
  | _ :: _ :: _ =>
      Raise (ValueError ("Invalid format specifier '" +:+ spec +:+
                         "' for object of type '" +:+ tp_name +:+ "'"))
  | _ =>
      let ty := match s9 with [c] => Some c | _ => default_type end in
      let mk sep := Return (mk_format_spec fill al alt z sgn wd sep prec ty) in
      match sep with
      | NoSep => mk NoSep
      | _ =>
          match ty with
          | None => mk sep
          | Some c =>
              if bool_decide (c ∈ PyStr.chars "defgEG%F") then mk sep
              else if bool_decide (c ∈ PyStr.chars "boxX") then
                match sep with
                | Underscore => mk UnderscoreFour
                | _ => Raise (invalid_thousands_separator_type sep ty)
                end
              else Raise (invalid_thousands_separator_type sep ty)
          end
      end
  end)).

(** [calc_padding] and [fill_padding] for a text of [len] characters; the
    fill character of a specification of the program is an ASCII one *)
Definition pad (f : format_spec) (s : string) : string :=
  let len := Z.of_nat (PyStr.length s) in
  let total := match width f with Some w => Z.max w len | None => len end in
  let lpad :=
    if is_char ">" (align f) then total - len
    else if is_char "^" (align f) then (total - len) / 2
    else 0 in
  let rpad := total - len - lpad in
  PyStr.repeat_char (fill_char f) (Z.to_nat lpad) +:+ s +:+
  PyStr.repeat_char (fill_char f) (Z.to_nat rpad).

(** [format_string_internal]: a [str] under a parsed specification *)
Definition format_string_internal (f : format_spec) (s : string) : outcome string :=
  match sign f with
  | Some c =>
      if is_char " " c
      then Raise (ValueError "Space not allowed in string format specifier")
      else Raise (ValueError "Sign not allowed in string format specifier")
  | None =>
      if no_neg_0 f
      then Raise (ValueError "Negative zero coercion (z) not allowed in string format specifier")
      else if alternate f
      then Raise (ValueError "Alternate form (#) not allowed in string format specifier")
      else if is_char "=" (align f)
      then Raise (ValueError "'=' alignment not allowed in string format specifier")
      else
        let s' := match precision f with
                  | Some p => PyStr.of_chars (PyStr.take_chars (Z.to_nat p) (PyStr.chars s))
                  | None => s
                  end in
        Return (pad f s')
  end.

(** [str.__format__] *)
Definition format_str (s : string) (spec : string) : outcome string :=
  if decide (spec = "") then Return s
  else
    outcome_bind (parse_format_spec "str" (Some "s"%char) "<" spec) (fun f =>
      match type f with
      | Some "s"%char => format_string_internal f s
      | ty => Raise (unknown_presentation_type ty "str")
      end).

End Format.


(** ** The float runtime

    What the Python runtime does with binary floating point is taken as an
    interface: conversion from text and from integers, multiplication, the
    zero test, [repr], and the rendering of a number under a parsed format
    specification.  The program is embedded over any implementation of it. *)

Class PyRuntime : Type := {
  float : Type;
  (** [float(s)] for a [str]; [None] when the text is no float literal *)
  float_of_string : string -> option float;
  (** [float(n)] for an [int]; [None] when [n] is too large *)
  float_of_Z : Z -> option float;
  float_mul : float -> float -> float;
  float_is_zero : float -> bool;
  float_repr : float -> string;
  (** [float.__format__] and [int.__format__] once the specification is parsed *)
  float_format : Format.format_spec -> float -> outcome string;
  int_format : Format.format_spec -> Z -> outcome string }.

(** ** Python values *)

Section Values.
Context `{PyRuntime}.

Inductive pyval : Type :=
  | PNone
  | PBool (b : bool)
  | PInt (n : Z)
  | PFloat (x : float)
  | PStr (s : string)
  | PList (l : list pyval)
  | PDict (d : list (string * pyval)).

(** A provider entity ([Account], [Position], [Order]): its raw fields. *)
Definition entity : Type := gmap string pyval.

Definition type_name (v : pyval) : string :=
  match v with
  | PNone => "NoneType"
  | PBool _ => "bool"
  | PInt _ => "int"
  | PFloat _ => "float"
  | PStr _ => "str"
  | PList _ => "list"
  | PDict _ => "dict"
  end.

(** [repr(v)] *)
Fixpoint py_repr (v : pyval) : string :=
  match v with
  | PNone => "None"
  | PBool true => "True"
  | PBool false => "False"
  | PInt n => pretty n
  | PFloat x => float_repr x
  | PStr s => PyStr.repr s
  | PList l => "[" +:+ PyStr.join ", " (map py_repr l) +:+ "]"
  | PDict d =>
      "{" +:+ PyStr.join ", "
                (map (fun kv => PyStr.repr (fst kv) +:+ ": " +:+ py_repr (snd kv)) d)
          +:+ "}"
  end.

(** [str(v)], also what [f"{v}"] gives *)
Definition py_str (v : pyval) : string :=
  match v with
  | PStr s => s
  | _ => py_repr v
  end.

(** truth value, as [if v], [not v] and [v or w] test it *)
Definition py_truthy (v : pyval) : bool :=
  match v with
  | PNone => false
  | PBool b => b
  | PInt n => negb (n =? 0)
  | PFloat x => negb (float_is_zero x)
  | PStr s => negb (bool_decide (s = ""))
  | PList l => negb (bool_decide (length l = 0%nat))
  | PDict d => negb (bool_decide (length d = 0%nat))
  end.

(** [v or w] *)
Definition py_or (v w : pyval) : pyval := if py_truthy v then v else w.

(** [v == s] for a [str] literal [s] *)
Definition py_eq_str (v : pyval) (s : string) : bool :=
  match v with
  | PStr s' => bool_decide (s' = s)
  | _ => false
  end.

(** [float(v)] *)
Definition py_float (v : pyval) : outcome float :=
  match v with
  | PStr s =>
      match float_of_string s with
      | Some x => Return x
      | None => Raise (ValueError ("could not convert string to float: " +:+ PyStr.repr s))
      end
  | PFloat x => Return x
  | PInt n =>
      match float_of_Z n with
      | Some x => Return x
      | None => Raise (OverflowError "int too large to convert to float")
      end
  | PBool b =>
      match float_of_Z (Z.b2z b) with
      | Some x => Return x
      | None => Raise (OverflowError "int too large to convert to float")
      end
  | _ => Raise (TypeError ("float() argument must be a string or a real number, not '"
                           +:+ type_name v +:+ "'"))
  end.

(** [x * n] for the stored fraction and an [int] literal *)
Definition py_mul (v w : pyval) : outcome pyval :=
  match v, w with
  | PFloat x, PInt n =>
      match float_of_Z n with
      | Some y => Return (PFloat (float_mul x y))
      | None => Raise (OverflowError "int too large to convert to float")
      end
  | _, _ => Raise (TypeError ("unsupported operand type(s) for *: '" +:+ type_name v
                              +:+ "' and '" +:+ type_name w +:+ "'"))
  end.

(** [format(v, spec)] *)
Definition py_format (v : pyval) (spec : string) : outcome string :=
  if decide (spec = "") then Return (py_str v)
  else
    match v with
    | PStr s => Format.format_str s spec
    | PInt n =>
        outcome_bind (Format.parse_format_spec "int" (Some "d"%char) ">" spec)
          (fun f => int_format f n)
    | PBool b =>
        outcome_bind (Format.parse_format_spec "bool" (Some "d"%char) ">" spec)
          (fun f => int_format f (Z.b2z b))
    | PFloat x =>
        outcome_bind (Format.parse_format_spec "float" None ">" spec)
          (fun f => float_format f x)
    | _ => Raise (TypeError ("unsupported format string passed to " +:+ type_name v
                             +:+ ".__format__"))
    end.

(** [d[k]] on a [dict] with a [str] key; [KeyError] when absent *)
Fixpoint dict_get (d : list (string * pyval)) (k : string) : option pyval :=
  match d with
  | [] => None
  | (k', v) :: d' => if decide (k' = k) then Some v else dict_get d' k
  end.

Definition py_getitem (v : pyval) (k : string) : outcome pyval :=
  match v with
  | PDict d =>
      match dict_get d k with
      | Some x => Return x
      | None => Raise (KeyError k)
      end
  | PList _ => Raise (TypeError "list indices must be integers or slices, not str")
  | PStr _ => Raise (TypeError "string indices must be integers, not 'str'")
  | _ => Raise (TypeError ("'" +:+ type_name v +:+ "' object is not subscriptable"))
  end.

(** [k in v] for a [str] literal [k]: a key of a [dict], an element of a
    [list], a substring of a [str] *)
Definition py_contains (k : string) (v : pyval) : outcome bool :=
  match v with
  | PDict d => Return (bool_decide (is_Some (dict_get d k)))
  | PList l => Return (existsb (fun x => py_eq_str x k) l)
  | PStr s => Return (PyStr.is_infix (PyStr.chars k) (PyStr.chars s))
  | _ => Raise (TypeError ("argument of type '" +:+ type_name v +:+ "' is not iterable"))
  end.

(** [obj.attr] on a provider entity of class [cls] *)
Definition getattr (cls : string) (obj : entity) (attr : string) : outcome pyval :=
  match obj !! attr with
  | Some v => Return v
  | None => Raise (AttributeError cls attr)
  end.

(** [for x in v] *)
Definition py_iter (v : pyval) : outcome (list pyval) :=
  match v with
  | PList l => Return l
  | PDict d => Return (map (fun kv => PStr (fst kv)) d)
  | PStr s => Return (map (fun c => PStr (PyStr.of_chars c))
                        (PyStr.code_points (PyStr.chars s)))
  | _ => Raise (TypeError ("'" +:+ type_name v +:+ "' object is not iterable"))
  end.

(** [str(e)] *)
Definition exn_str (e : exn) : string :=
  match e with
  | APIError msg => msg
  | KeyError key => PyStr.repr key
  | ValueError msg => msg
  | TypeError msg => msg
  | AttributeError cls attr =>
      "'" +:+ cls +:+ "' object has no attribute '" +:+ attr +:+ "'"
  | OverflowError msg => msg
  | ImportError name modname =>
      "cannot import name '" +:+ name +:+ "' from '" +:+ modname +:+ "'"
  | SystemExit code => pretty code
  | OtherException _ msg => msg
  end.

End Values.

(** ** Effects: standard output and provider requests *)

(** The requests the program sends to the provider. *)
Inductive request : Type :=
  | GetAccount
  | ListPositions
  | SubmitOrder (symbol : string) (qty : Z) (side type time_in_force : string)
  | ListOrders (status : string) (limit : Z).

Record world : Type := mk_world {
  stdout : list string;       (* one entry per call of [print] *)
  calls : list request }.     (* provider requests, oldest first *)

Definition M (A : Type) : Type := world -> outcome A * world.

Definition ret {A} (a : A) : M A := fun w => (Return a, w).

Definition bind {A B} (c : M A) (k : A -> M B) : M B :=
  fun w =>
    match c w with
    | (Return a, w') => k a w'
    | (Raise e, w') => (Raise e, w')
    end.

Definition raise {A} (e : exn) : M A := fun w => (Raise e, w).

Definition lift {A} (o : outcome A) : M A := fun w => (o, w).

Declare Scope py_scope.
Delimit Scope py_scope with py.
Notation "x <- c ;; k" := (bind c (fun x => k))
  (at level 100, c at next level, right associativity) : py_scope.
Notation "c ;;; k" := (bind c (fun _ => k))
  (at level 100, right associativity) : py_scope.
Local Open Scope py_scope.

(** [try: body  except <class> as e: handler e] *)
Definition try_except {A} (body : M A) (catches : exn -> bool) (handler : exn -> M A)
  : M A :=
  fun w =>
    match body w with
    | (Return a, w') => (Return a, w')
    | (Raise e, w') => if catches e then handler e w' else (Raise e, w')
    end.

Definition print (s : string) : M unit :=
  fun w => (Return tt, mk_world (stdout w ++ [s]) (calls w)).

Definition sys_exit {A} (code : Z) : M A := raise (SystemExit code).

Definition send (r : request) : M unit :=
  fun w => (Return tt, mk_world (stdout w) (calls w ++ [r])).

(** [for x in l: body x] *)
Fixpoint for_each {A} (l : list A) (body : A -> M unit) : M unit :=
  match l with
  | [] => ret tt
  | x :: l' => body x ;;; for_each l' body
  end.

(** [[f x for x in l]] *)
Fixpoint comprehension {A B} (f : A -> M B) (l : list A) : M (list B) :=
  match l with
  | [] => ret []
  | x :: l' => y <- f x ;; ys <- comprehension f l' ;; ret (y :: ys)
  end.

Definition nl : string := PyStr.of_chars ["010"%char].

(** ** alpaca_cli.py *)

Module alpaca_cli.

(** The session handle [REST(key_id=..., secret_key=..., base_url=URL(...))]
    of the provider library.  Following the design (section 4.2) its
    constructor stores its arguments and does nothing else. *)
Record REST : Type := mk_REST {
  key_id : string;
  secret_key : string;
  base_url : string }.

Definition URL (s : string) : string := s.

(** [os.environ[name]] *)
Definition environ_getitem (environ : gmap string string) (name : string) : M string :=
  match environ !! name with
  | Some v => ret v
  | None => raise (KeyError name)
  end.

(** [os.environ.get(name, dflt)] *)
Definition environ_get (environ : gmap string string) (name dflt : string) : string :=
  default dflt (environ !! name).

Definition is_KeyError (e : exn) : bool :=
  match e with KeyError _ => true | _ => false end.

Section Functions.
Context `{PyRuntime}.

(** [setup_api_client()], with [os.environ] as an argument *)
Definition setup_api_client (environ : gmap string string) : M REST :=
  v <- try_except
         (api_key <- environ_getitem environ "APCA_API_KEY_ID" ;;
          secret_key <- environ_getitem environ "APCA_API_SECRET_KEY" ;;
          let base_url :=
            environ_get environ "APCA_API_BASE_URL" "https://paper-api.alpaca.markets" in
          ret (api_key, secret_key, base_url))
         is_KeyError
         (fun e =>
            print ("🔴 Critical Error: Environment variable " +:+ exn_str e +:+ " not set.") ;;;
            sys_exit 1) ;;
  let '(api_key, secret_key, base_url) := v in
  ret (mk_REST api_key secret_key (URL base_url)).

(** What the provider answers to each call of a session: a result or a
    raised exception. *)
Record Provider : Type := mk_Provider {
  provider_get_account : REST -> outcome entity;
  provider_list_positions : REST -> outcome (list entity);
  provider_submit_order : REST -> string -> Z -> string -> string -> string -> outcome entity;
  provider_list_orders : REST -> string -> Z -> outcome (list entity) }.

Context (provider : Provider).

(** The four methods of the session used by the program: each sends one
    request and hands back the provider's answer. *)
Definition api_get_account (api : REST) : M entity :=
  send GetAccount ;;; lift (provider_get_account provider api).

Definition api_list_positions (api : REST) : M (list entity) :=
  send ListPositions ;;; lift (provider_list_positions provider api).

Definition api_submit_order (api : REST) (symbol : string) (qty : Z)
    (side type time_in_force : string) : M entity :=
  send (SubmitOrder symbol qty side type time_in_force) ;;;
  lift (provider_submit_order provider api symbol qty side type time_in_force).

Definition api_list_orders (api : REST) (status : string) (limit : Z) : M (list entity) :=
  send (ListOrders status limit) ;;;
  lift (provider_list_orders provider api status limit).

(** [{"error": str(e)}] *)
Definition error_value (msg : string) : pyval := PDict [("error", PStr msg)].

(** the [try] block of [get_account_status_data] *)
Definition get_account_status_data_body (api : REST) : M pyval :=
  account <- api_get_account api ;;
  id <- lift (getattr "Account" account "id") ;;
  status <- lift (getattr "Account" account "status") ;;
  currency <- lift (getattr "Account" account "currency") ;;
  portfolio_value <- lift (outcome_bind (getattr "Account" account "portfolio_value") py_float) ;;
  buying_power <- lift (outcome_bind (getattr "Account" account "buying_power") py_float) ;;
  cash <- lift (outcome_bind (getattr "Account" account "cash") py_float) ;;
  equity <- lift (outcome_bind (getattr "Account" account "equity") py_float) ;;
  pattern_day_trader <- lift (getattr "Account" account "pattern_day_trader") ;;
  ret (PDict [("id", id);
              ("status", status);
              ("currency", currency);
              ("portfolio_value", PFloat portfolio_value);
              ("buying_power", PFloat buying_power);
              ("cash", PFloat cash);
              ("equity", PFloat equity);
              ("pattern_day_trader", pattern_day_trader)]).

Definition get_account_status_data (api : REST) : M pyval :=
  try_except (get_account_status_data_body api) is_APIError
    (fun e => ret (error_value (exn_str e))).

(** one element of the list built by [list_positions_data] *)
Definition position_dict (pos : entity) : M pyval :=
  symbol <- lift (getattr "Position" pos "symbol") ;;
  qty <- lift (outcome_bind (getattr "Position" pos "qty") py_float) ;;
  market_value <- lift (outcome_bind (getattr "Position" pos "market_value") py_float) ;;
  avg_entry_price <- lift (outcome_bind (getattr "Position" pos "avg_entry_price") py_float) ;;
  current_price <- lift (outcome_bind (getattr "Position" pos "current_price") py_float) ;;
  unrealized_pl <- lift (outcome_bind (getattr "Position" pos "unrealized_pl") py_float) ;;
  unrealized_plpc <- lift (outcome_bind (getattr "Position" pos "unrealized_plpc") py_float) ;;
  ret (PDict [("symbol", symbol);
              ("qty", PFloat qty);
              ("market_value", PFloat market_value);
              ("avg_entry_price", PFloat avg_entry_price);
              ("current_price", PFloat current_price);
              ("unrealized_pl", PFloat unrealized_pl);
              ("unrealized_plpc", PFloat unrealized_plpc)]).

(** the [try] block of [list_positions_data] *)
Definition list_positions_data_body (api : REST) : M pyval :=
  positions <- api_list_positions api ;;
  rows <- comprehension position_dict positions ;;
  ret (PList rows).

Definition list_positions_data (api : REST) : M pyval :=
  try_except (list_positions_data_body api) is_APIError
    (fun e => ret (error_value (exn_str e))).

(** [f"{v:spec}"] for one replacement field, and [data[k]] *)
Definition field (v : pyval) (spec : string) : M string := lift (py_format v spec).
Definition item (data : pyval) (k : string) : M pyval := lift (py_getitem data k).

(** the [else] branch of [get_account_status] *)
Definition get_account_status_success (data : pyval) : M unit :=
  print (nl +:+ "---" +:+ nl +:+ "📋 Fetching Account Status..." +:+ nl +:+ "---") ;;;
  st <- item data "status" ;;
  let status := if py_eq_str st "ACTIVE" then "ACTIVE" else "RESTRICTED" in
  s1 <- field (PStr status) "" ;;
  id <- item data "id" ;;
  s2 <- field id "" ;;
  print ("Account Status:       " +:+ s1 +:+ " (" +:+ s2 +:+ ")") ;;;
  currency <- item data "currency" ;;
  s <- field currency "" ;;
  print ("Currency:             " +:+ s) ;;;
  portfolio_value <- item data "portfolio_value" ;;
  s <- field portfolio_value ", .2f" ;;
  print ("Portfolio Value:      $" +:+ s) ;;;
  buying_power <- item data "buying_power" ;;
  s <- field buying_power ", .2f" ;;
  print ("Buying Power:         $" +:+ s) ;;;
  daytrade_count <- item data "daytrade_count" ;;
  s <- field daytrade_count "" ;;
  print ("Daytrade Count:       " +:+ s) ;;;
  pattern_day_trader <- item data "pattern_day_trader" ;;
  s <- field (PStr (if py_truthy pattern_day_trader then "Yes" else "No")) "" ;;
  print ("Pattern Day Trader:   " +:+ s).

(** [get_account_status(api, args)] *)
Definition get_account_status (api : REST) : M pyval :=
  data <- get_account_status_data api ;;
  is_error <- lift (py_contains "error" data) ;;
  (if is_error : bool then
     e <- item data "error" ;;
     s <- field e "" ;;
     print ("🔴 API Error fetching account: " +:+ s)
   else
     get_account_status_success data) ;;;
  ret PNone.


(** the header line of [list_positions] *)
Definition positions_header : M string :=
  c1 <- field (PStr "Symbol") "<10" ;;
  c2 <- field (PStr "Qty") "<10" ;;
  c3 <- field (PStr "Avg Entry Price") "<18" ;;
  c4 <- field (PStr "Current Price") "<15" ;;
  c5 <- field (PStr "P/L ($)") "<15" ;;
  c6 <- field (PStr "P/L (%)") "<15" ;;
  ret (c1 +:+ " " +:+ c2 +:+ " " +:+ c3 +:+ " " +:+ c4 +:+ " " +:+ c5 +:+ " " +:+ c6).

(** the body of the loop of [list_positions] *)
Definition positions_row (pos : pyval) : M unit :=
  unrealized_pl <- item pos "unrealized_pl" ;;
  pl_usd <- field unrealized_pl ", .2f" ;;
  unrealized_plpc <- item pos "unrealized_plpc" ;;
  scaled <- lift (py_mul unrealized_plpc (PInt 100)) ;;
  s <- field scaled ",.2f" ;;
  let pl_pct := s +:+ "%" in
  symbol <- item pos "symbol" ;;
  c1 <- field symbol "<10" ;;
  qty <- item pos "qty" ;;
  c2 <- field qty "<10" ;;
  avg_entry_price <- item pos "avg_entry_price" ;;
  c3 <- field avg_entry_price "<17,.2f" ;;
  current_price <- item pos "current_price" ;;
  c4 <- field current_price "<14,.2f" ;;
  c5 <- field (PStr pl_usd) "<15" ;;
  c6 <- field (PStr pl_pct) "<15" ;;
  print (c1 +:+ " " +:+ c2 +:+ " $" +:+ c3 +:+ " $" +:+ c4 +:+ " " +:+ c5 +:+ " " +:+ c6).

(** [list_positions(api, args)] *)
Definition list_positions (api : REST) : M pyval :=
  data <- list_positions_data api ;;
  is_error <- lift (py_contains "error" data) ;;
  (if is_error : bool then
     e <- item data "error" ;;
     s <- field e "" ;;
     print ("🔴 API Error listing positions: " +:+ s)
   else if negb (py_truthy data) then
     print "No open positions found."
   else
     print (nl +:+ "---" +:+ nl +:+ "📊 Fetching Open Positions..." +:+ nl +:+ "---") ;;;
     header <- positions_header ;;
     print header ;;;
     print (PyStr.repeat_char "-" 90) ;;;
     rows <- lift (py_iter data) ;;
     for_each rows positions_row) ;;;
  ret PNone.

(** the arguments of [orders place] and [orders list], as [argparse]
    delivers them: [--qty] and [--limit] are declared [type=int] *)
Record place_args : Type := mk_place_args {
  symbol : string;
  qty : Z;
  side : string;
  type : string;
  time_in_force : string }.

Record list_args : Type := mk_list_args {
  status : string;
  limit : Z }.

(** [f"{order.attr}"] *)
Definition order_field (order : entity) (attr : string) : M string :=
  v <- lift (getattr "Order" order attr) ;;
  field v "".

(** the [try] block of [place_order] *)
Definition place_order_body (api : REST) (args : place_args) : M unit :=
  order <- api_submit_order api (symbol args) (qty args) (side args) (type args)
             (time_in_force args) ;;
  print "✅ Order submitted successfully!" ;;;
  s <- order_field order "id" ;;
  print ("    ID:           " +:+ s) ;;;
  s <- order_field order "symbol" ;;
  print ("    Symbol:       " +:+ s) ;;;
  s <- order_field order "qty" ;;
  print ("    Qty:          " +:+ s) ;;;
  s <- order_field order "side" ;;
  print ("    Side:         " +:+ s) ;;;
  s <- order_field order "type" ;;
  print ("    Type:         " +:+ s) ;;;
  s <- order_field order "status" ;;
  print ("    Status:       " +:+ s).

(** [place_order(api, args)] *)
Definition place_order (api : REST) (args : place_args) : M pyval :=
  s1 <- field (PInt (qty args)) "" ;;
  s2 <- field (PStr (symbol args)) "" ;;
  print (nl +:+ "---" +:+ nl +:+ "🛒 Placing Order for " +:+ s1 +:+ " " +:+ s2 +:+ "..."
         +:+ nl +:+ "---") ;;;
  try_except (place_order_body api args) is_APIError
    (fun e => print ("🔴 API Error placing order: " +:+ exn_str e)) ;;;
  ret PNone.

(** the header line of [list_orders] *)
Definition orders_header : M string :=
  c1 <- field (PStr "ID") "<30" ;;
  c2 <- field (PStr "Symbol") "<10" ;;
  c3 <- field (PStr "Qty") "<8" ;;
  c4 <- field (PStr "Side") "<8" ;;
  c5 <- field (PStr "Type") "<10" ;;
  c6 <- field (PStr "Status") "<12" ;;
  ret (c1 +:+ " " +:+ c2 +:+ " " +:+ c3 +:+ " " +:+ c4 +:+ " " +:+ c5 +:+ " " +:+ c6).

(** [f"{(order.attr or 'N/A'):spec}"] *)
Definition order_cell (order : entity) (attr spec : string) : M string :=
  v <- lift (getattr "Order" order attr) ;;
  field (py_or v (PStr "N/A")) spec.

(** the body of the loop of [list_orders] *)
Definition orders_row (order : entity) : M unit :=
  c1 <- order_cell order "id" "<30" ;;
  c2 <- order_cell order "symbol" "<10" ;;
  c3 <- order_cell order "qty" "<8" ;;
  c4 <- order_cell order "side" "<8" ;;
  c5 <- order_cell order "type" "<10" ;;
  c6 <- order_cell order "status" "<12" ;;
  print (c1 +:+ " " +:+ c2 +:+ " " +:+ c3 +:+ " " +:+ c4 +:+ " " +:+ c5 +:+ " " +:+ c6).

(** the [try] block of [list_orders] *)
Definition list_orders_body (api : REST) (args : list_args) : M unit :=
  orders <- api_list_orders api (status args) (limit args) ;;
  if bool_decide (length orders = 0%nat) then
    s <- field (PStr (status args)) "" ;;
    print ("No orders found with status '" +:+ s +:+ "'.")
  else
    header <- orders_header ;;
    print header ;;;
    print (PyStr.repeat_char "-" 80) ;;;
    for_each orders orders_row.

(** [list_orders(api, args)] *)
Definition list_orders (api : REST) (args : list_args) : M pyval :=
  s <- field (PStr (status args)) "" ;;
  print (nl +:+ "---" +:+ nl +:+ "📄 Fetching Orders (Status: " +:+ s +:+ ")..."
         +:+ nl +:+ "---") ;;;
  try_except (list_orders_body api args) is_APIError
    (fun e => print ("🔴 API Error listing orders: " +:+ exn_str e)) ;;;
  ret PNone.

(** The command line once [argparse] has read it: the sub-command picks
    the function bound by [set_defaults(func=...)]. *)
Inductive command : Type :=
  | CmdAccount
  | CmdPositions
  | CmdOrdersList (args : list_args)
  | CmdOrdersPlace (args : place_args).

(** [main()], after [parser.parse_args()] *)
Definition main (environ : gmap string string) (cmd : command) : M pyval :=
  api <- setup_api_client environ ;;
  match cmd with
  | CmdAccount => get_account_status api
  | CmdPositions => list_positions api
  | CmdOrdersList args => list_orders api args
  | CmdOrdersPlace args => place_order api args
  end.

End Functions.

(** The names bound at the top level of the module, in source order:
    what [from alpaca_cli import name] can find. *)
Inductive member : Type :=
  | Imported (name : string)
  | Fn_setup_api_client
  | Fn_get_account_status_data
  | Fn_list_positions_data
  | Fn_get_account_status
  | Fn_list_positions
  | Fn_place_order
  | Fn_list_orders
  | Fn_main.

Definition module_dict : list (string * member) :=
  [("os", Imported "os"); ("sys", Imported "sys"); ("argparse", Imported "argparse");
   ("json", Imported "json"); ("REST", Imported "REST"); ("APIError", Imported "APIError");
   ("URL", Imported "URL"); ("load_dotenv", Imported "load_dotenv");
   ("setup_api_client", Fn_setup_api_client);
   ("get_account_status_data", Fn_get_account_status_data);
   ("list_positions_data", Fn_list_positions_data);
   ("get_account_status", Fn_get_account_status);
   ("list_positions", Fn_list_positions);
   ("place_order", Fn_place_order);
   ("list_orders", Fn_list_orders);
   ("main", Fn_main)].

Fixpoint lookup_member (d : list (string * member)) (name : string) : option member :=
  match d with
  | [] => None
  | (n, m) :: d' => if decide (n = name) then Some m else lookup_member d' name
  end.

(** one name of [from alpaca_cli import ...] *)
Definition import_name (name : string) : M member :=
  match lookup_member module_dict name with
  | Some m => ret m
  | None => raise (ImportError name "alpaca_cli")
  end.

(** [f()] where the caller takes the result for the session.  Of the
    members of the module only [setup_api_client] is such a constructor; the
    front-ends call no other member this way, and such a call is given as a
    [TypeError]. *)
Definition call_for_session (f : member) (environ : gmap string string) : M REST :=
  match f with
  | Fn_setup_api_client => setup_api_client environ
  | _ => raise (TypeError "missing required positional arguments")
  end.

End alpaca_cli.

(** ** The HTTP front-ends *)

(** A route answers with a JSON body and a status code. *)
Definition response `{PyRuntime} : Type := (pyval * Z)%type.

(** [jsonify(data)]: the JSON document of [data], kept as the value itself *)
Definition jsonify `{PyRuntime} (data : pyval) : pyval := data.

(** *** Alpaca.py *)
Module Alpaca.
Import alpaca_cli.

Section Server.
Context `{PyRuntime} (provider : Provider).

(** the module's top level: the import, then [api = setup_api_client()] *)
Definition load (environ : gmap string string) : M REST :=
  setup_api_client_ <- import_name "setup_api_client" ;;
  _ <- import_name "get_account_status_data" ;;
  _ <- import_name "list_positions_data" ;;
  call_for_session setup_api_client_ environ.

(** [GET /api/account_info] *)
Definition get_account_info (api : REST) : M response :=
  data <- get_account_status_data provider api ;;
  is_error <- lift (py_contains "error" data) ;;
  if is_error : bool then ret (jsonify data, 500)
  else ret (jsonify data, 200).

(** [GET /api/positions] *)
Definition get_positions (api : REST) : M response :=
  data <- list_positions_data provider api ;;
  is_error <- lift (py_contains "error" data) ;;
  if is_error : bool then ret (jsonify data, 500)
  else ret (jsonify data, 200).

(** [GET /api/screen_stocks] *)
Definition get_screen_stocks : M response :=
  ret (jsonify (PDict [("stocks", PList [])]), 200).

End Server.
End Alpaca.

(** *** api.py *)
Module api.
Import alpaca_cli.

Section Server.
Context `{PyRuntime} (provider : Provider).

(** the module's top level: the import, then
    [trading_client = setup_api_client_from_env()] *)
Definition load (environ : gmap string string) : M REST :=
  setup_api_client_from_env <- import_name "setup_api_client_from_env" ;;
  _ <- import_name "get_account_status_data" ;;
  _ <- import_name "list_positions_data" ;;
  call_for_session setup_api_client_from_env environ.

(** [GET /api/account_info] *)
Definition get_account_info (trading_client : REST) : M response :=
  try_except
    (account_data <- get_account_status_data provider trading_client ;;
     ret (jsonify account_data, 200))
    is_Exception
    (fun e => ret (jsonify (error_value (exn_str e)), 500)).

(** [GET /api/positions] *)
Definition get_positions (trading_client : REST) : M response :=
  try_except
    (positions_list <- list_positions_data provider trading_client ;;
     ret (jsonify positions_list, 200))
    is_Exception
    (fun e => ret (jsonify (error_value (exn_str e)), 500)).

End Server.
End api.

(** ** A runtime for evaluating examples

    Floats are exact decimals [mantissa * 10 ^ exponent], kept normalised;
    text is read as an ASCII decimal literal (no underscores, no [inf] or
    [nan]); numbers are rendered under the presentation types the program
    uses (none, [d] and [f]).  Nothing is rounded to binary. *)

Module DecimalRuntime.

Record decimal : Type := mk_decimal { mantissa : Z; exponent : Z }.

Fixpoint strip_zeros (fuel : nat) (m e : Z) : decimal :=
  match fuel with
  | O => mk_decimal m e
  | S fuel' =>
      if decide (m = 0) then mk_decimal 0 0
      else if decide (m mod 10 = 0) then strip_zeros fuel' (m / 10) (e + 1)
      else mk_decimal m e
  end.

Definition normalise (m e : Z) : decimal :=
  strip_zeros (S (Z.to_nat (Z.log2 (Z.abs m)))) m e.

(** the leading digits of [s] and what follows them *)
Fixpoint span_digits (s : list ascii) : list Z * list ascii :=
  match s with
  | [] => ([], [])
  | c :: s' =>
      match Format.digit_value c with
      | Some d => let '(ds, rest) := span_digits s' in (d :: ds, rest)
      | None => ([], s)
      end
  end.

Fixpoint drop_spaces (s : list ascii) : list ascii :=
  match s with
  | c :: s' => if Ascii.is_space c then drop_spaces s' else s
  | [] => []
  end.

Definition digits_value (ds : list Z) : Z := fold_left (fun acc d => acc * 10 + d) ds 0.

Definition strip_spaces (s : list ascii) : list ascii :=
  reverse (drop_spaces (reverse (drop_spaces s))).

Definition read_sign (s : list ascii) : Z * list ascii :=
  match s with
  | "-"%char :: s' => (-1, s')
  | "+"%char :: s' => (1, s')
  | _ => (1, s)
  end.

Definition parse_decimal (text : string) : option decimal :=
  let '(sgn, s) := read_sign (strip_spaces (PyStr.chars text)) in
  let '(int_digits, s) := span_digits s in
  let '(frac_digits, s) :=
    match s with
    | "."%char :: s' => span_digits s'
    | _ => ([], s)
    end in
  if bool_decide (int_digits ++ frac_digits = []) then None
  else
    let m := sgn * digits_value (int_digits ++ frac_digits) in
    let e := - Z.of_nat (length frac_digits) in
    match s with
    | [] => Some (normalise m e)
    | c :: s' =>
        if bool_decide (c = "e"%char ∨ c = "E"%char) then
          let '(esgn, s') := read_sign s' in
          match span_digits s' with
          | (d :: ds, []) => Some (normalise m (e + esgn * digits_value (d :: ds)))
          | _ => None
          end
        else None
    end.

Definition mul (x y : decimal) : decimal :=
  normalise (mantissa x * mantissa y) (exponent x + exponent y).

Definition zeros (n : Z) : string := PyStr.repeat_char "0" (Z.to_nat n).

(** the unsigned text of [m * 10 ^ e] for [0 <= m], with at least one digit
    on each side of the point when [e < 0] *)
Definition positional (m e : Z) : string :=
  let d := pretty m in
  let len := Z.of_nat (String.length d) in
  if decide (0 <= e) then d +:+ zeros e
  else
    let k := - e in
    let d' := zeros (k + 1 - len) +:+ d in
    let n := (String.length d' - Z.to_nat k)%nat in
    PyStr.of_chars (take n (PyStr.chars d')) +:+ "." +:+
    PyStr.of_chars (drop n (PyStr.chars d')).

Definition repr (x : decimal) : string :=
  (if decide (mantissa x < 0) then "-" else "") +:+
  (if decide (0 <= exponent x)
   then positional (Z.abs (mantissa x)) (exponent x) +:+ ".0"
   else positional (Z.abs (mantissa x)) (exponent x)).

(** [m / 10 ^ k] rounded to the nearest integer, ties to even, [0 <= m] *)
Definition round_half_even (m k : Z) : Z :=
  let p := 10 ^ k in
  let q := m / p in
  let r := m mod p in
  if decide (2 * r < p) then q
  else if decide (2 * r > p) then q + 1
  else if Z.even q then q else q + 1.

(** commas between groups of three digits *)
Fixpoint group_go (fuel : nat) (ds : list ascii) : list ascii :=
  match fuel with
  | O => ds
  | S fuel' =>
      if decide (length ds <= 3)%nat then ds
      else group_go fuel' (take (length ds - 3) ds) ++ ","%char :: drop (length ds - 3) ds
  end.

Definition group (t : Format.thousands) (int_part : string) : string :=
  match t with
  | Format.Comma =>
      PyStr.of_chars (group_go (String.length int_part) (PyStr.chars int_part))
  | _ => int_part
  end.

Definition sign_text (f : Format.format_spec) (negative : bool) : string :=
  if negative then "-"
  else match Format.sign f with
       | Some "+"%char => "+"
       | Some " "%char => " "
       | _ => ""
       end.

(** padding of a number: [=] pads between the sign and the digits *)
Definition pad_number (f : Format.format_spec) (sgn body : string) : string :=
  if Format.is_char "=" (Format.align f) then
    let len := Z.of_nat (String.length sgn + String.length body) in
    let total := match Format.width f with Some w => Z.max w len | None => len end in
    sgn +:+ PyStr.repeat_char (Format.fill_char f) (Z.to_nat (total - len)) +:+ body
  else Format.pad f (sgn +:+ body).

Definition not_implemented {A} (what : string) : outcome A :=
  Raise (OtherException "NotImplementedError" what).

Definition format_fixed (f : Format.format_spec) (x : decimal) : outcome string :=
  let p := default 6 (Format.precision f) in
  let m := Z.abs (mantissa x) in
  let shift := exponent x + p in
  let scaled := if decide (0 <= shift) then m * 10 ^ shift else round_half_even m (- shift) in
  let text := positional scaled (- p) in
  let n := (String.length text - Z.to_nat p - (if decide (p = 0%Z) then 0 else 1))%nat in
  let int_part := PyStr.of_chars (take n (PyStr.chars text)) in
  let rest := PyStr.of_chars (drop n (PyStr.chars text)) in
  Return (pad_number f (sign_text f (bool_decide (mantissa x < 0)))
            (group (Format.thousands_separators f) int_part +:+ rest)).

Definition format_float (f : Format.format_spec) (x : decimal) : outcome string :=
  match Format.type f with
  | None =>
      match Format.precision f, Format.thousands_separators f with
      | None, Format.NoSep =>
          Return (pad_number f (sign_text f (bool_decide (mantissa x < 0)))
                    (repr (mk_decimal (Z.abs (mantissa x)) (exponent x))))
      | _, _ => not_implemented "general format with precision or grouping"
      end
  | Some c =>
      if bool_decide (c = "f"%char ∨ c = "F"%char) then format_fixed f x
      else if bool_decide (c ∈ PyStr.chars "eEgGn%") then not_implemented "presentation type"
      else Raise (Format.unknown_presentation_type (Some c) "float")
  end.

Definition format_int (f : Format.format_spec) (n : Z) : outcome string :=
  match Format.type f with
  | Some c =>
      if bool_decide (c = "d"%char) then
        match Format.precision f with
        | Some _ => Raise (ValueError "Precision not allowed in integer format specifier")
        | None =>
            if Format.no_neg_0 f
            then Raise (ValueError
                   "Negative zero coercion (z) not allowed in integer format specifier")
            else Return (pad_number f (sign_text f (bool_decide (n < 0)))
                           (group (Format.thousands_separators f) (pretty (Z.abs n))))
        end
      else if bool_decide (c ∈ PyStr.chars "fF") then format_fixed f (normalise n 0)
      else if bool_decide (c ∈ PyStr.chars "bcoxXneEgG%") then not_implemented "presentation type"
      else Raise (Format.unknown_presentation_type (Some c) "int")
  | None => not_implemented "no presentation type"
  end.

#[export] Instance decimal_runtime : PyRuntime := {|
  float := decimal;
  float_of_string := parse_decimal;
  float_of_Z := fun n => Some (normalise n 0);
  float_mul := mul;
  float_is_zero := fun x => bool_decide (mantissa x = 0);
  float_repr := repr;
  float_format := format_float;
  int_format := format_int |}.

End DecimalRuntime.


(** ** Vocabulary of the statements *)

(** the state after one more provider request, one more printed line *)
Definition sent (r : request) (w : world) : world :=
  mk_world (stdout w) (calls w ++ [r]).

Definition printed (lines : list string) (w : world) : world :=
  mk_world (stdout w ++ lines) (calls w).

(** a computation that sends nothing to the provider *)
Definition silent {A} (c : M A) : Prop :=
  forall w, calls (snd (c w)) = calls w.

Definition missing_message (name : string) : string :=
  "🔴 Critical Error: Environment variable '" +:+ name +:+ "' not set.".

Section Vocabulary.
Import alpaca_cli.
Context `{PyRuntime}.

Fixpoint outcome_map {A B} (f : A -> outcome B) (l : list A) : outcome (list B) :=
  match l with
  | [] => Return []
  | x :: l' =>
      outcome_bind (f x) (fun y =>
      outcome_bind (outcome_map f l') (fun ys => Return (y :: ys)))
  end.

(** [float(obj.attr)] *)
Definition float_attr (cls : string) (obj : entity) (attr : string) : outcome float :=
  outcome_bind (getattr cls obj attr) py_float.

(** the dictionary [get_account_status_data] builds from an account *)
Definition account_dict (account : entity) : outcome pyval :=
  outcome_bind (getattr "Account" account "id") (fun id =>
  outcome_bind (getattr "Account" account "status") (fun status =>
  outcome_bind (getattr "Account" account "currency") (fun currency =>
  outcome_bind (float_attr "Account" account "portfolio_value") (fun portfolio_value =>
  outcome_bind (float_attr "Account" account "buying_power") (fun buying_power =>
  outcome_bind (float_attr "Account" account "cash") (fun cash =>
  outcome_bind (float_attr "Account" account "equity") (fun equity =>
  outcome_bind (getattr "Account" account "pattern_day_trader") (fun pattern_day_trader =>
  Return (PDict [("id", id);
                 ("status", status);
                 ("currency", currency);
                 ("portfolio_value", PFloat portfolio_value);
                 ("buying_power", PFloat buying_power);
                 ("cash", PFloat cash);
                 ("equity", PFloat equity);
                 ("pattern_day_trader", pattern_day_trader)]))))))))).

(** the dictionary [list_positions_data] builds from one position *)
Definition position_row (pos : entity) : outcome pyval :=
  outcome_bind (getattr "Position" pos "symbol") (fun symbol =>
  outcome_bind (float_attr "Position" pos "qty") (fun qty =>
  outcome_bind (float_attr "Position" pos "market_value") (fun market_value =>
  outcome_bind (float_attr "Position" pos "avg_entry_price") (fun avg_entry_price =>
  outcome_bind (float_attr "Position" pos "current_price") (fun current_price =>
  outcome_bind (float_attr "Position" pos "unrealized_pl") (fun unrealized_pl =>
  outcome_bind (float_attr "Position" pos "unrealized_plpc") (fun unrealized_plpc =>
  Return (PDict [("symbol", symbol);
                 ("qty", PFloat qty);
                 ("market_value", PFloat market_value);
                 ("avg_entry_price", PFloat avg_entry_price);
                 ("current_price", PFloat current_price);
                 ("unrealized_pl", PFloat unrealized_pl);
                 ("unrealized_plpc", PFloat unrealized_plpc)])))))))).

(** the fields the two data functions pass through [float] *)
Definition account_numeric_fields : list string :=
  ["portfolio_value"; "buying_power"; "cash"; "equity"].

Definition position_numeric_fields : list string :=
  ["qty"; "market_value"; "avg_entry_price"; "current_price";
   "unrealized_pl"; "unrealized_plpc"].

(** the first line [place_order] and [list_orders] print *)
Definition place_order_banner (args : place_args) : string :=
  nl +:+ "---" +:+ nl +:+ "🛒 Placing Order for " +:+ pretty (qty args) +:+ " "
     +:+ symbol args +:+ "..." +:+ nl +:+ "---".

Definition list_orders_banner (args : list_args) : string :=
  nl +:+ "---" +:+ nl +:+ "📄 Fetching Orders (Status: " +:+ status args +:+ ")..."
     +:+ nl +:+ "---".

(** a field that went through [float] unchanged: the entity has it, [float]
    accepts it, and the dictionary holds exactly that float *)
Definition stored_as_float (obj : entity) (d : pyval) (f : string) : Prop :=
  exists v x, obj !! f = Some v /\ py_float v = Return x /\
              py_getitem d f = Return (PFloat x).

(** what Python raises for the specification [", .2f"] on a float *)
Definition invalid_amount_spec : exn :=
  ValueError "Invalid format specifier ', .2f' for object of type 'float'".

(** the dictionary of a successful [get_account_status_data] *)
Definition account_status (id status currency : pyval)
    (portfolio_value buying_power cash equity : float) (pattern_day_trader : pyval)
  : pyval :=
  PDict [("id", id);
         ("status", status);
         ("currency", currency);
         ("portfolio_value", PFloat portfolio_value);
         ("buying_power", PFloat buying_power);
         ("cash", PFloat cash);
         ("equity", PFloat equity);
         ("pattern_day_trader", pattern_day_trader)].

(** one dictionary of a successful [list_positions_data] *)
Definition position_value (symbol : pyval)
    (qty market_value avg_entry_price current_price unrealized_pl unrealized_plpc : float)
  : pyval :=
  PDict [("symbol", symbol);
         ("qty", PFloat qty);
         ("market_value", PFloat market_value);
         ("avg_entry_price", PFloat avg_entry_price);
         ("current_price", PFloat current_price);
         ("unrealized_pl", PFloat unrealized_pl);
         ("unrealized_plpc", PFloat unrealized_plpc)].

(** the three lines the positions command prints before its first row *)
Definition positions_lines : list string :=
  [nl +:+ "---" +:+ nl +:+ "📊 Fetching Open Positions..." +:+ nl +:+ "---";
   "Symbol     Qty        Avg Entry Price    Current Price   P/L ($)         P/L (%)        ";
   PyStr.repeat_char "-" 90].

(** the three lines the account command prints before its first amount *)
Definition account_lines (id status currency : pyval) : list string :=
  [nl +:+ "---" +:+ nl +:+ "📋 Fetching Account Status..." +:+ nl +:+ "---";
   "Account Status:       " +:+ (if py_eq_str status "ACTIVE" then "ACTIVE" else "RESTRICTED")
      +:+ " (" +:+ py_str id +:+ ")";
   "Currency:             " +:+ py_str currency].

End Vocabulary.

(** ** Sample inputs *)

Module Samples.
Import alpaca_cli DecimalRuntime.

Definition w0 : world := mk_world [] [].

Definition api0 : REST := mk_REST "PK123" "secret" "https://paper-api.alpaca.markets".

Definition account (portfolio_value : string) : entity :=
  list_to_map
    [("id", PStr "acct-1"); ("status", PStr "ACTIVE"); ("currency", PStr "USD");
     ("portfolio_value", PStr portfolio_value); ("buying_power", PStr "200000");
     ("cash", PStr "100000"); ("equity", PStr "100000");
     ("pattern_day_trader", PBool false)].

Definition position (qty unrealized_plpc : string) : entity :=
  list_to_map
    [("symbol", PStr "AAPL"); ("qty", PStr qty); ("market_value", PStr "1500.00");
     ("avg_entry_price", PStr "142.43"); ("current_price", PStr "150.00");
     ("unrealized_pl", PStr "75.70"); ("unrealized_plpc", PStr unrealized_plpc)].

(** the provider echoes a submitted order *)
Definition echo_order (symbol : string) (qty : Z) (side type : string) : entity :=
  list_to_map
    [("id", PStr "order-1"); ("symbol", PStr symbol); ("qty", PStr (pretty qty));
     ("side", PStr side); ("type", PStr type); ("status", PStr "accepted")].

(** a provider that answers every call *)
Definition healthy : Provider :=
  mk_Provider
    (fun _ => Return (account "100000"))
    (fun _ => Return [position "10" "0.0532"])
    (fun _ symbol qty side type _ => Return (echo_order symbol qty side type))
    (fun _ _ _ => Return []).

(** a provider that rejects every call with the same message *)
Definition rejecting (msg : string) : Provider :=
  mk_Provider
    (fun _ => Raise (APIError msg))
    (fun _ => Raise (APIError msg))
    (fun _ _ _ _ _ _ => Raise (APIError msg))
    (fun _ _ _ => Raise (APIError msg)).

(** a provider whose account and position carry a field that is no number *)
Definition malformed : Provider :=
  mk_Provider
    (fun _ => Return (account "abc"))
    (fun _ => Return [position "N/A" "0.0532"])
    (fun _ symbol qty side type _ => Return (echo_order symbol qty side type))
    (fun _ _ _ => Return []).

(** a provider below which the transport fails *)
Definition unreachable : Provider :=
  mk_Provider
    (fun _ => Raise (OtherException "ConnectionError" "connection refused"))
    (fun _ => Raise (OtherException "ConnectionError" "connection refused"))
    (fun _ _ _ _ _ _ => Raise (OtherException "ConnectionError" "connection refused"))
    (fun _ _ _ => Raise (OtherException "ConnectionError" "connection refused")).

(** what [list_positions_data] makes of the position of [healthy] *)
Definition healthy_rows : list pyval :=
  [PDict [("symbol", PStr "AAPL");
          ("qty", PFloat (mk_decimal 1 1));
          ("market_value", PFloat (mk_decimal 15 2));
          ("avg_entry_price", PFloat (mk_decimal 14243 (-2)));
          ("current_price", PFloat (mk_decimal 15 1));
          ("unrealized_pl", PFloat (mk_decimal 757 (-1)));
          ("unrealized_plpc", PFloat (mk_decimal 532 (-4)))]].

(** what [get_account_status_data] makes of the account of [healthy] *)
Definition healthy_account : pyval :=
  account_status (PStr "acct-1") (PStr "ACTIVE") (PStr "USD")
    (mk_decimal 1 5) (mk_decimal 2 5) (mk_decimal 1 5) (mk_decimal 1 5) (PBool false).

Definition buy_10_aapl : place_args := mk_place_args "AAPL" 10 "buy" "market" "gtc".

Definition env_apca : gmap string string :=
  {[ "APCA_API_KEY_ID" := "PK123"; "APCA_API_SECRET_KEY" := "secret" ]}.

(** the names as the design document spells them *)
Definition env_plain : gmap string string :=
  {[ "API_KEY_ID" := "PK123"; "API_SECRET_KEY" := "secret" ]}.

Definition env_both : gmap string string :=
  {[ "API_KEY_ID" := "PK123"; "API_SECRET_KEY" := "secret";
     "APCA_API_KEY_ID" := "PK123"; "APCA_API_SECRET_KEY" := "secret" ]}.

Definition env_secret_only : gmap string string :=
  {[ "APCA_API_SECRET_KEY" := "secret" ]}.

End Samples.


(** ** The command line of alpaca_cli.py

    [main] declares its options with [argparse] and calls
    [parser.parse_args()].  The declarations are data; what [argparse] does
    with one declared option and the text given for it is embedded in
    [parse_str] and [parse_int].  How [argparse] splits [sys.argv] into
    sub-command and option texts is not embedded: a command line is taken as
    already split ([command_line]).  An error of [argparse] writes to
    standard error and leaves with exit status 2. *)

Module cli_parser.
Import alpaca_cli.

(** [required=True], or [default=v] *)
Inductive presence (A : Type) : Type :=
  | Required
  | Default (v : A).
Arguments Required {A}.
Arguments Default {A} v.

(** [add_argument(flag, type=str, ...)] *)
Record str_argument : Type := mk_str_argument {
  str_flag : string;
  str_presence : presence string;
  str_choices : option (list string) }.

(** [add_argument(flag, type=int, ...)] *)
Record int_argument : Type := mk_int_argument {
  int_flag : string;
  int_presence : presence Z }.

(** the declarations of [orders list] *)
Definition arg_status : str_argument :=
  mk_str_argument "--status" (Default "open") (Some ["open"; "closed"; "all"]).
Definition arg_limit : int_argument :=
  mk_int_argument "--limit" (Default 50).

(** the declarations of [orders place] *)
Definition arg_symbol : str_argument :=
  mk_str_argument "--symbol" Required None.
Definition arg_qty : int_argument :=
  mk_int_argument "--qty" Required.
Definition arg_side : str_argument :=
  mk_str_argument "--side" Required (Some ["buy"; "sell"]).
Definition arg_type : str_argument :=
  mk_str_argument "--type" (Default "market") (Some ["market"; "limit"]).
Definition arg_time_in_force : str_argument :=
  mk_str_argument "--time_in_force" (Default "gtc") (Some ["day"; "gtc"; "opg"]).

(** [parser.error(...)] *)
Definition argparse_error {A} : M A := sys_exit 2.

(** the value of a [type=str] option: the text given, checked against the
    choices; the default when the option is not given *)
Definition parse_str (a : str_argument) (given : option string) : M string :=
  match given with
  | Some text =>
      match str_choices a with
      | Some choices =>
          if bool_decide (text ∈ choices) then ret text else argparse_error
      | None => ret text
      end
  | None =>
      match str_presence a with
      | Default v => ret v
      | Required => argparse_error
      end
  end.

(** A command line, split: the sub-command and, for each option of it, the
    text given if any. *)
Inductive command_line : Type :=
  | NoCommand
  | Account
  | Positions
  | OrdersList (status limit : option string)
  | OrdersPlace (symbol qty side type time_in_force : option string).

Section Parser.
(** [int(text)] for a [str]; [None] when the text is no integer literal *)
Context (int_of_string : string -> option Z).

(** the value of a [type=int] option *)
Definition parse_int (a : int_argument) (given : option string) : M Z :=
  match given with
  | Some text =>
      match int_of_string text with
      | Some n => ret n
      | None => argparse_error
      end
  | None =>
      match int_presence a with
      | Default v => ret v
      | Required => argparse_error
      end
  end.

(** [parser.parse_args()]: the command, with the function that
    [set_defaults(func=...)] binds to it *)
Definition parse_args (line : command_line) : M command :=
  match line with
  | NoCommand => argparse_error
  | Account => ret CmdAccount
  | Positions => ret CmdPositions
  | OrdersList status limit =>
      status <- parse_str arg_status status ;;
      limit <- parse_int arg_limit limit ;;
      ret (CmdOrdersList (mk_list_args status limit))
  | OrdersPlace symbol qty side type time_in_force =>
      symbol <- parse_str arg_symbol symbol ;;
      qty <- parse_int arg_qty qty ;;
      side <- parse_str arg_side side ;;
      type <- parse_str arg_type type ;;
      time_in_force <- parse_str arg_time_in_force time_in_force ;;
      ret (CmdOrdersPlace (mk_place_args symbol qty side type time_in_force))
  end.

(** [main()] from the command line on *)
Definition main_from_command_line `{PyRuntime} (provider : Provider)
    (environ : gmap string string) (line : command_line) : M pyval :=
  args <- parse_args line ;;
  main provider environ args.

End Parser.
End cli_parser.

(** ** Further vocabulary *)

(** the failures of building a dictionary from a provider entity: those of
    [float] ([ValueError], [TypeError], [OverflowError]) and that of reading
    an attribute the entity lacks ([AttributeError]) *)
Definition is_field_failure (e : exn) : bool :=
  match e with
  | ValueError _ | TypeError _ | OverflowError _ | AttributeError _ _ => true
  | _ => false
  end.

(** [s.ljust(n)], what the specification ["<n"] makes of a text *)
Definition ljust (n : nat) (s : string) : string :=
  s +:+ PyStr.repeat_char " " (n - PyStr.length s).

(** the one request each command sends *)
Definition request_of (cmd : alpaca_cli.command) : request :=
  match cmd with
  | alpaca_cli.CmdAccount => GetAccount
  | alpaca_cli.CmdPositions => ListPositions
  | alpaca_cli.CmdOrdersList args =>
      ListOrders (alpaca_cli.status args) (alpaca_cli.limit args)
  | alpaca_cli.CmdOrdersPlace args =>
      SubmitOrder (alpaca_cli.symbol args) (alpaca_cli.qty args) (alpaca_cli.side args)
        (alpaca_cli.type args) (alpaca_cli.time_in_force args)
  end.

(** what the options of a parsed command may be *)
Definition valid_command (cmd : alpaca_cli.command) : Prop :=
  match cmd with
  | alpaca_cli.CmdOrdersList args =>
      alpaca_cli.status args ∈ ["open"; "closed"; "all"]
  | alpaca_cli.CmdOrdersPlace args =>
      alpaca_cli.side args ∈ ["buy"; "sell"] /\
      alpaca_cli.type args ∈ ["market"; "limit"] /\
      alpaca_cli.time_in_force args ∈ ["day"; "gtc"; "opg"]
  | _ => True
  end.

Definition order_attributes : list string :=
  ["id"; "symbol"; "qty"; "side"; "type"; "status"].

Section Order_vocabulary.
Context `{PyRuntime}.

(** a field of an order as the provider sends it: a text or [None] *)
Definition text_or_none (v : pyval) : Prop :=
  match v with
  | PStr _ | PNone => True
  | _ => False
  end.

Definition order_of_texts (order : entity) : Prop :=
  forall attr, attr ∈ order_attributes ->
    exists v, order !! attr = Some v /\ text_or_none v.

(** the text shown for a field: ["N/A"] for [None] and for the empty text *)
Definition cell_text (order : entity) (attr : string) : string :=
  match order !! attr with
  | Some (PStr s) => if decide (s = "") then "N/A" else s
  | _ => "N/A"
  end.

(** one line of the table of [list_orders] *)
Definition order_line (order : entity) : string :=
  ljust 30 (cell_text order "id") +:+ " " +:+
  ljust 10 (cell_text order "symbol") +:+ " " +:+
  ljust 8 (cell_text order "qty") +:+ " " +:+
  ljust 8 (cell_text order "side") +:+ " " +:+
  ljust 10 (cell_text order "type") +:+ " " +:+
  ljust 12 (cell_text order "status").

Definition orders_header_line : string :=
  "ID                             Symbol     Qty      Side     Type       Status      ".

(** the lines [place_order] prints for a submitted order *)
Definition confirmation_lines (id symbol qty side type status : pyval) : list string :=
  ["✅ Order submitted successfully!";
   "    ID:           " +:+ py_str id;
   "    Symbol:       " +:+ py_str symbol;
   "    Qty:          " +:+ py_str qty;
   "    Side:         " +:+ py_str side;
   "    Type:         " +:+ py_str type;
   "    Status:       " +:+ py_str status].

End Order_vocabulary.

(** the command lines [argparse] refuses: no sub-command, a text outside
    the choices of its option, a text that is no integer where one is
    expected, a required option left out *)
Definition outside (choices : list string) (given : option string) : Prop :=
  exists text, given = Some text /\ text ∉ choices.

Definition no_integer (int_of_string : string -> option Z) (given : option string) : Prop :=
  exists text, given = Some text /\ int_of_string text = None.

Definition rejected (int_of_string : string -> option Z) (line : cli_parser.command_line)
  : Prop :=
  match line with
  | cli_parser.NoCommand => True
  | cli_parser.Account | cli_parser.Positions => False
  | cli_parser.OrdersList status limit =>
      outside ["open"; "closed"; "all"] status \/ no_integer int_of_string limit
  | cli_parser.OrdersPlace symbol qty side type time_in_force =>
      symbol = None \/ qty = None \/ side = None \/
      no_integer int_of_string qty \/
      outside ["buy"; "sell"] side \/
      outside ["market"; "limit"] type \/
      outside ["day"; "gtc"; "opg"] time_in_force
  end.

(** a reader of ASCII integer literals, for the sample command lines *)
Definition decimal_int_of_string (text : string) : option Z :=
  let '(sgn, s) :=
    DecimalRuntime.read_sign (DecimalRuntime.strip_spaces (PyStr.chars text)) in
  match DecimalRuntime.span_digits s with
  | (d :: ds, []) => Some (sgn * DecimalRuntime.digits_value (d :: ds))
  | _ => None
  end.

(** ** Further sample inputs *)

Module MoreSamples.
Import alpaca_cli DecimalRuntime Samples.

(** an order whose symbol is missing and whose status is empty *)
Definition sparse_order : entity :=
  list_to_map
    [("id", PStr "order-2"); ("symbol", PNone); ("qty", PStr "5");
     ("side", PStr "sell"); ("type", PStr "limit"); ("status", PStr "")].

(** a provider of an account without positions and with two orders *)
Definition with_orders : Provider :=
  mk_Provider
    (fun _ => Return (account "100000"))
    (fun _ => Return [])
    (fun _ symbol qty side type _ => Return (echo_order symbol qty side type))
    (fun _ _ _ => Return [echo_order "AAPL" 10 "buy" "market"; sparse_order]).

Definition all_orders : list_args := mk_list_args "all" 5.

End MoreSamples.

(** * Properties *)

Import alpaca_cli.

(** membership in a list given by its elements *)
Ltac in_literal_list := repeat constructor.

(** ** The effect monad *)

Section Monad_facts.
Context {A B : Type}.

Lemma bind_Return (c : M A) (k : A -> M B) w a w' :
  c w = (Return a, w') -> bind c k w = k a w'.
Proof. intros Hc. unfold bind. by rewrite Hc. Qed.

Lemma bind_Raise (c : M A) (k : A -> M B) w e w' :
  c w = (Raise e, w') -> bind c k w = (Raise e, w').
Proof. intros Hc. unfold bind. by rewrite Hc. Qed.

Lemma try_except_Return (body : M A) catches handler w a w' :
  body w = (Return a, w') -> try_except body catches handler w = (Return a, w').
Proof. intros Hb. unfold try_except. by rewrite Hb. Qed.

Lemma try_except_caught (body : M A) catches handler w e w' :
  body w = (Raise e, w') -> catches e = true ->
  try_except body catches handler w = handler e w'.
Proof. intros Hb Hc. unfold try_except. by rewrite Hb, Hc. Qed.

Lemma try_except_passes (body : M A) catches handler w e w' :
  body w = (Raise e, w') -> catches e = false ->
  try_except body catches handler w = (Raise e, w').
Proof. intros Hb Hc. unfold try_except. by rewrite Hb, Hc. Qed.

End Monad_facts.

(** ** Credentials *)

Lemma setup_api_client_no_key (environ : gmap string string) w :
  environ !! "APCA_API_KEY_ID" = None ->
  setup_api_client environ w =
    (Raise (SystemExit 1),
     mk_world (stdout w ++ [missing_message "APCA_API_KEY_ID"]) (calls w)).
Proof.
  intros Hk. unfold setup_api_client, bind, try_except, environ_getitem.
  rewrite Hk. reflexivity.
Qed.

Lemma setup_api_client_no_secret (environ : gmap string string) w k :
  environ !! "APCA_API_KEY_ID" = Some k ->
  environ !! "APCA_API_SECRET_KEY" = None ->
  setup_api_client environ w =
    (Raise (SystemExit 1),
     mk_world (stdout w ++ [missing_message "APCA_API_SECRET_KEY"]) (calls w)).
Proof.
  intros Hk Hs. unfold setup_api_client, bind, try_except, environ_getitem.
  rewrite Hk. cbn. rewrite Hs. reflexivity.
Qed.

Lemma setup_api_client_ok (environ : gmap string string) w k s :
  environ !! "APCA_API_KEY_ID" = Some k ->
  environ !! "APCA_API_SECRET_KEY" = Some s ->
  setup_api_client environ w =
    (Return (mk_REST k s (environ_get environ "APCA_API_BASE_URL"
                            "https://paper-api.alpaca.markets")), w).
Proof.
  intros Hk Hs. unfold setup_api_client, bind, try_except, environ_getitem.
  rewrite Hk. cbn. rewrite Hs. reflexivity.
Qed.

(** C5. When either required credential is absent from the environment,
    [setup_api_client] prints a line that names a missing variable and
    leaves through [sys.exit(1)]: exit status 1, no session, and [main]
    stops there without sending any request to the provider.  When both are
    present it returns the session built from them and prints nothing. *)
Theorem setup_api_client_fails_fast `{PyRuntime} (provider : Provider)
    (environ : gmap string string) (w : world) :
  (environ !! "APCA_API_KEY_ID" = None \/ environ !! "APCA_API_SECRET_KEY" = None ->
   exists name,
     (name = "APCA_API_KEY_ID" \/ name = "APCA_API_SECRET_KEY") /\
     environ !! name = None /\
     setup_api_client environ w =
       (Raise (SystemExit 1), mk_world (stdout w ++ [missing_message name]) (calls w)) /\
     forall cmd,
       main provider environ cmd w =
         (Raise (SystemExit 1), mk_world (stdout w ++ [missing_message name]) (calls w)))
  /\
  (forall k s,
     environ !! "APCA_API_KEY_ID" = Some k ->
     environ !! "APCA_API_SECRET_KEY" = Some s ->
     exists url,
       setup_api_client environ w = (Return (mk_REST k s url), w)).
Proof.
  split.
  - intros Hmissing.
    destruct (environ !! "APCA_API_KEY_ID") as [k|] eqn:Hk.
    + destruct Hmissing as [?|Hs]; [discriminate|].
      exists "APCA_API_SECRET_KEY". repeat split; [by right | done | |].
      * by apply setup_api_client_no_secret with k.
      * intros cmd. unfold main. apply bind_Raise.
        by apply setup_api_client_no_secret with k.
    + exists "APCA_API_KEY_ID". repeat split; [by left | done | |].
      * by apply setup_api_client_no_key.
      * intros cmd. unfold main. apply bind_Raise.
        by apply setup_api_client_no_key.
  - intros k s Hk Hs. eexists. by apply setup_api_client_ok.
Qed.

(** C6 (amended).  The outcome of [setup_api_client] is a function of the
    three variables [APCA_API_KEY_ID], [APCA_API_SECRET_KEY] and
    [APCA_API_BASE_URL] alone: two environments that agree on them give the
    same outcome, whatever else they hold.  With both credentials present
    the endpoint is [APCA_API_BASE_URL] when set and the paper-trading
    address otherwise. *)
Theorem setup_api_client_reads_apca_names (environ environ' : gmap string string)
    (w : world) :
  (environ !! "APCA_API_KEY_ID" = environ' !! "APCA_API_KEY_ID" ->
   environ !! "APCA_API_SECRET_KEY" = environ' !! "APCA_API_SECRET_KEY" ->
   environ !! "APCA_API_BASE_URL" = environ' !! "APCA_API_BASE_URL" ->
   setup_api_client environ w = setup_api_client environ' w)
  /\
  (forall k s,
     environ !! "APCA_API_KEY_ID" = Some k ->
     environ !! "APCA_API_SECRET_KEY" = Some s ->
     environ !! "APCA_API_BASE_URL" = None ->
     setup_api_client environ w =
       (Return (mk_REST k s "https://paper-api.alpaca.markets"), w))
  /\
  (forall k s url,
     environ !! "APCA_API_KEY_ID" = Some k ->
     environ !! "APCA_API_SECRET_KEY" = Some s ->
     environ !! "APCA_API_BASE_URL" = Some url ->
     setup_api_client environ w = (Return (mk_REST k s url), w)).
Proof.
  split; [|split].
  - intros Hk Hs Hb.
    unfold setup_api_client, bind, try_except, environ_getitem, environ_get.
    by rewrite Hk, Hs, Hb.
  - intros k s Hk Hs Hb.
    rewrite (setup_api_client_ok environ w k s Hk Hs).
    unfold environ_get. by rewrite Hb.
  - intros k s url Hk Hs Hb.
    rewrite (setup_api_client_ok environ w k s Hk Hs).
    unfold environ_get. by rewrite Hb.
Qed.

(** ** Imports *)

(** C10.  [api.py] asks [alpaca_cli] for [setup_api_client_from_env]; the
    module binds no such name (its constructor is [setup_api_client]), so
    loading [api.py] stops at the import with an [ImportError], in every
    environment: no session is ever made for its routes. *)
Theorem api_py_fails_at_import (environ : gmap string string) (w : world) :
  lookup_member module_dict "setup_api_client_from_env" = None /\
  lookup_member module_dict "setup_api_client" = Some Fn_setup_api_client /\
  api.load environ w = (Raise (ImportError "setup_api_client_from_env" "alpaca_cli"), w) /\
  forall trading_client w', api.load environ w <> (Return trading_client, w').
Proof.
  assert (Hload : api.load environ w
                  = (Raise (ImportError "setup_api_client_from_env" "alpaca_cli"), w))
    by reflexivity.
  repeat split; try reflexivity.
  intros trading_client w'. rewrite Hload. discriminate.
Qed.

(** [Alpaca.py] imports names the module does bind: its load is the
    credential resolver. *)
Lemma Alpaca_py_load (environ : gmap string string) (w : world) :
  Alpaca.load environ w = setup_api_client environ w.
Proof. reflexivity. Qed.

(** ** The data functions *)

Section Data_functions.
Context `{PyRuntime} (provider : Provider).

Lemma py_float_not_APIError v e : py_float v = Raise e -> is_APIError e = false.
Proof.
  destruct v; cbn; repeat case_match; intros; simplify_eq; done.
Qed.

Lemma getattr_not_APIError cls obj attr e :
  getattr cls obj attr = Raise e -> is_APIError e = false.
Proof. unfold getattr. case_match; intros; by simplify_eq. Qed.

Lemma float_attr_not_APIError cls obj attr e :
  float_attr cls obj attr = Raise e -> is_APIError e = false.
Proof.
  unfold float_attr. destruct (getattr cls obj attr) eqn:Hg; cbn.
  - apply py_float_not_APIError.
  - intros; simplify_eq. by eapply getattr_not_APIError.
Qed.

Lemma float_attr_Return cls obj attr x :
  float_attr cls obj attr = Return x ->
  exists v, obj !! attr = Some v /\ py_float v = Return x.
Proof.
  unfold float_attr, getattr. destruct (obj !! attr) as [v|]; cbn; [|done].
  intros Hx. by exists v.
Qed.

(** The [try] block of [get_account_status_data] sends one request and
    then builds the dictionary from the answer. *)
Lemma get_account_status_data_body_eq api w :
  get_account_status_data_body provider api w =
    (outcome_bind (provider_get_account provider api) account_dict, sent GetAccount w).
Proof.
  unfold get_account_status_data_body, api_get_account, bind, send, lift, sent, ret.
  destruct (provider_get_account provider api) as [account|e]; [|done].
  unfold account_dict, float_attr; cbn -[getattr py_float].
  repeat (match goal with
          | |- context [getattr ?c ?o ?a] => destruct (getattr c o a); cbn -[getattr py_float]
          | |- context [py_float ?v] => destruct (py_float v); cbn -[getattr py_float]
          end; try done).
Qed.

Lemma position_dict_eq pos w :
  position_dict pos w = (position_row pos, w).
Proof.
  unfold position_dict, position_row, float_attr, bind, lift, ret.
  repeat (match goal with
          | |- context [getattr ?c ?o ?a] => destruct (getattr c o a); cbn -[getattr py_float]
          | |- context [py_float ?v] => destruct (py_float v); cbn -[getattr py_float]
          end; try done).
Qed.

Lemma comprehension_position_dict positions w :
  comprehension position_dict positions w = (outcome_map position_row positions, w).
Proof.
  induction positions as [|pos positions IH]; [done|].
  cbn [comprehension outcome_map]. unfold bind at 1. rewrite position_dict_eq.
  destruct (position_row pos) as [row|e]; [|done].
  unfold bind at 1. rewrite IH. cbn.
  by destruct (outcome_map position_row positions).
Qed.

Lemma list_positions_data_body_eq api w :
  list_positions_data_body provider api w =
    (outcome_bind (provider_list_positions provider api)
       (fun positions => outcome_bind (outcome_map position_row positions)
                           (fun rows => Return (PList rows))),
     sent ListPositions w).
Proof.
  unfold list_positions_data_body, api_list_positions, send, lift.
  unfold bind at 1 2. cbn.
  destruct (provider_list_positions provider api) as [positions|e]; [|done].
  unfold bind. rewrite comprehension_position_dict. cbn.
  by destruct (outcome_map position_row positions).
Qed.

End Data_functions.

Section Data_results.
Context `{PyRuntime} (provider : Provider).

Lemma outcome_map_Return {A B} (f : A -> outcome B) l ys :
  outcome_map f l = Return ys -> Forall2 (fun x y => f x = Return y) l ys.
Proof.
  revert ys. induction l as [|x l IH]; intros ys; cbn.
  - intros; simplify_eq. constructor.
  - destruct (f x) as [y|] eqn:Hx; cbn; [|done].
    destruct (outcome_map f l) as [ys'|]; cbn; [|done].
    intros; simplify_eq. constructor; [done|]. by apply IH.
Qed.

Lemma outcome_map_Raise {A B} (f : A -> outcome B) l e :
  outcome_map f l = Raise e -> exists x, x ∈ l /\ f x = Raise e.
Proof.
  induction l as [|x l IH]; cbn; [done|].
  destruct (f x) as [y|e'] eqn:Hx; cbn.
  - destruct (outcome_map f l) as [ys'|e'']; cbn; [done|].
    intros; simplify_eq. destruct IH as (x' & Hin & Hx'); [done|].
    exists x'. split; [by right | done].
  - intros; simplify_eq. exists x. split; [by left | done].
Qed.

Lemma outcome_map_fails {A B} (f : A -> outcome B) l x e :
  x ∈ l -> f x = Raise e -> exists e', outcome_map f l = Raise e'.
Proof.
  intros Hin Hx. destruct (outcome_map f l) as [ys|e'] eqn:Hmap; [|by eauto].
  apply outcome_map_Return in Hmap.
  apply list_elem_of_lookup in Hin as [i Hi].
  destruct (Forall2_lookup_l _ _ _ _ _ Hmap Hi) as (y & _ & Hy). congruence.
Qed.

Lemma outcome_map_total {A B} (f : A -> outcome B) l :
  (forall x, x ∈ l -> exists y, f x = Return y) ->
  exists ys, outcome_map f l = Return ys.
Proof.
  induction l as [|x l IH]; intros Hall; cbn; [by eauto|].
  destruct (Hall x) as [y ->]; [by left|].
  destruct IH as [ys ->]; [|by eauto].
  intros x' Hx'. apply Hall. by right.
Qed.

Lemma account_dict_Raise account e :
  account_dict account = Raise e -> is_APIError e = false.
Proof.
  unfold account_dict.
  repeat (match goal with
          | |- context [outcome_bind (?f ?c ?o ?a) _] =>
              let Hf := fresh "Hf" in
              destruct (f c o a) eqn:Hf; cbn [outcome_bind];
              [| intros; simplify_eq;
                 first [ by eapply getattr_not_APIError
                       | by eapply float_attr_not_APIError ] ]
          end).
  done.
Qed.

Lemma account_dict_Return account d :
  account_dict account = Return d ->
  forall f, f ∈ account_numeric_fields -> stored_as_float account d f.
Proof.
  unfold account_dict.
  repeat (match goal with
          | |- context [outcome_bind (?f ?c ?o ?a) _] =>
              let Hf := fresh "Hf" in
              destruct (f c o a) eqn:Hf; cbn [outcome_bind]; [|done]
          end).
  intros; simplify_eq.
  repeat match goal with
         | Hx : float_attr _ _ _ = Return _ |- _ =>
             apply float_attr_Return in Hx as (? & ? & ?)
         end.
  unfold account_numeric_fields in *. unfold stored_as_float.
  repeat match goal with
         | Hin : _ ∈ _ :: _ |- _ => apply elem_of_cons in Hin as [->|Hin]
         | Hin : _ ∈ [] |- _ => by apply elem_of_nil in Hin
         end; eauto.
Qed.

Lemma position_row_Raise pos e :
  position_row pos = Raise e -> is_APIError e = false.
Proof.
  unfold position_row.
  repeat (match goal with
          | |- context [outcome_bind (?f ?c ?o ?a) _] =>
              let Hf := fresh "Hf" in
              destruct (f c o a) eqn:Hf; cbn [outcome_bind];
              [| intros; simplify_eq;
                 first [ by eapply getattr_not_APIError
                       | by eapply float_attr_not_APIError ] ]
          end).
  done.
Qed.

Lemma position_row_Return pos row :
  position_row pos = Return row ->
  forall f, f ∈ position_numeric_fields -> stored_as_float pos row f.
Proof.
  unfold position_row.
  repeat (match goal with
          | |- context [outcome_bind (?f ?c ?o ?a) _] =>
              let Hf := fresh "Hf" in
              destruct (f c o a) eqn:Hf; cbn [outcome_bind]; [|done]
          end).
  intros; simplify_eq.
  repeat match goal with
         | Hx : float_attr _ _ _ = Return _ |- _ =>
             apply float_attr_Return in Hx as (? & ? & ?)
         end.
  unfold position_numeric_fields in *. unfold stored_as_float.
  repeat match goal with
         | Hin : _ ∈ _ :: _ |- _ => apply elem_of_cons in Hin as [->|Hin]
         | Hin : _ ∈ [] |- _ => by apply elem_of_nil in Hin
         end; eauto.
Qed.

End Data_results.

Section Facade.
Context `{PyRuntime} (provider : Provider).

(** What [get_account_status_data] does, by the provider's answer. *)
Lemma get_account_status_data_eq api w :
  get_account_status_data provider api w =
    (match provider_get_account provider api with
     | Return account => account_dict account
     | Raise (APIError msg) => Return (error_value msg)
     | Raise e => Raise e
     end, sent GetAccount w).
Proof.
  unfold get_account_status_data, try_except.
  rewrite get_account_status_data_body_eq.
  destruct (provider_get_account provider api) as [account|e]; cbn.
  - destruct (account_dict account) as [d|e] eqn:Hd; [done|].
    by rewrite (account_dict_Raise _ _ Hd).
  - by destruct e.
Qed.

(** What [list_positions_data] does, by the provider's answer. *)
Lemma list_positions_data_eq api w :
  list_positions_data provider api w =
    (match provider_list_positions provider api with
     | Return positions =>
         outcome_bind (outcome_map position_row positions)
           (fun rows => Return (PList rows))
     | Raise (APIError msg) => Return (error_value msg)
     | Raise e => Raise e
     end, sent ListPositions w).
Proof.
  unfold list_positions_data, try_except.
  rewrite list_positions_data_body_eq.
  destruct (provider_list_positions provider api) as [positions|e]; cbn.
  - destruct (outcome_map position_row positions) as [rows|e] eqn:Hrows; [done|].
    cbn. apply outcome_map_Raise in Hrows as (pos & _ & Hpos).
    by rewrite (position_row_Raise _ _ Hpos).
  - by destruct e.
Qed.

Lemma field_empty_spec v w : field v "" w = (Return (py_str v), w).
Proof. reflexivity. Qed.

(** the first line of [place_order], then its [try] statement *)
Lemma place_order_eq api args w :
  place_order provider api args w =
    bind (try_except (place_order_body provider api args) is_APIError
            (fun e => print ("🔴 API Error placing order: " +:+ exn_str e)))
         (fun _ => ret PNone)
         (printed [place_order_banner args] w).
Proof. reflexivity. Qed.

Lemma list_orders_eq api args w :
  list_orders provider api args w =
    bind (try_except (list_orders_body provider api args) is_APIError
            (fun e => print ("🔴 API Error listing orders: " +:+ exn_str e)))
         (fun _ => ret PNone)
         (printed [list_orders_banner args] w).
Proof. reflexivity. Qed.

Lemma place_order_body_rejected api args w e :
  provider_submit_order provider api (symbol args) (qty args) (side args) (type args)
    (time_in_force args) = Raise e ->
  place_order_body provider api args w =
    (Raise e,
     sent (SubmitOrder (symbol args) (qty args) (side args) (type args)
             (time_in_force args)) w).
Proof.
  intros He. unfold place_order_body, api_submit_order, send, lift.
  unfold bind at 1 2. cbn. by rewrite He.
Qed.

Lemma list_orders_body_rejected api args w e :
  provider_list_orders provider api (status args) (limit args) = Raise e ->
  list_orders_body provider api args w =
    (Raise e, sent (ListOrders (status args) (limit args)) w).
Proof.
  intros He. unfold list_orders_body, api_list_orders, send, lift.
  unfold bind at 1 2. cbn. by rewrite He.
Qed.

End Facade.

(** C1 (amended).  A provider failure ([APIError]) never leaves any of the
    four operations.  [get_account_status_data] and [list_positions_data]
    return [{"error": message}] with the provider's text.  [place_order] and
    [list_orders] print one line that ends with the provider's text and
    return [None]. *)
Theorem provider_failure_is_caught `{PyRuntime} (provider : Provider) (api : REST)
    (msg : string) (w : world) :
  (provider_get_account provider api = Raise (APIError msg) ->
   get_account_status_data provider api w = (Return (error_value msg), sent GetAccount w))
  /\
  (provider_list_positions provider api = Raise (APIError msg) ->
   list_positions_data provider api w = (Return (error_value msg), sent ListPositions w))
  /\
  (forall args,
     provider_submit_order provider api (symbol args) (qty args) (side args) (type args)
       (time_in_force args) = Raise (APIError msg) ->
     place_order provider api args w =
       (Return PNone,
        printed [place_order_banner args; "🔴 API Error placing order: " +:+ msg]
          (sent (SubmitOrder (symbol args) (qty args) (side args) (type args)
                   (time_in_force args)) w)))
  /\
  (forall args,
     provider_list_orders provider api (status args) (limit args) = Raise (APIError msg) ->
     list_orders provider api args w =
       (Return PNone,
        printed [list_orders_banner args; "🔴 API Error listing orders: " +:+ msg]
          (sent (ListOrders (status args) (limit args)) w))).
Proof.
  repeat split.
  - intros Hp. by rewrite get_account_status_data_eq, Hp.
  - intros Hp. by rewrite list_positions_data_eq, Hp.
  - intros args Hp. rewrite place_order_eq.
    erewrite bind_Return; [reflexivity|].
    erewrite try_except_caught;
      [| by apply place_order_body_rejected | reflexivity].
    unfold print, printed, sent; cbn. by rewrite <- app_assoc.
  - intros args Hp. rewrite list_orders_eq.
    erewrite bind_Return; [reflexivity|].
    erewrite try_except_caught;
      [| by apply list_orders_body_rejected | reflexivity].
    unfold print, printed, sent; cbn. by rewrite <- app_assoc.
Qed.

(** C4.  A failure that is not an [APIError], raised in the [try] block of
    any of the four operations, leaves the operation as it is: it is not
    caught and no error value is made of it. *)
Theorem other_failures_propagate `{PyRuntime} (provider : Provider) (api : REST)
    (e : exn) (w w' : world) :
  is_APIError e = false ->
  (get_account_status_data_body provider api w = (Raise e, w') ->
   get_account_status_data provider api w = (Raise e, w'))
  /\
  (list_positions_data_body provider api w = (Raise e, w') ->
   list_positions_data provider api w = (Raise e, w'))
  /\
  (forall args,
     place_order_body provider api args (printed [place_order_banner args] w)
       = (Raise e, w') ->
     place_order provider api args w = (Raise e, w'))
  /\
  (forall args,
     list_orders_body provider api args (printed [list_orders_banner args] w)
       = (Raise e, w') ->
     list_orders provider api args w = (Raise e, w')).
Proof.
  intros He. repeat split.
  - intros Hb. by apply try_except_passes.
  - intros Hb. by apply try_except_passes.
  - intros args Hb. rewrite place_order_eq.
    apply bind_Raise. by apply try_except_passes.
  - intros args Hb. rewrite list_orders_eq.
    apply bind_Raise. by apply try_except_passes.
Qed.

(** A failure raised below the provider library that is no [APIError]
    (a transport error, say) comes out of the two data functions as raised. *)
Lemma transport_failure_propagates `{PyRuntime} (provider : Provider) (api : REST)
    (e : exn) (w : world) :
  is_APIError e = false ->
  (provider_get_account provider api = Raise e ->
   get_account_status_data provider api w = (Raise e, sent GetAccount w))
  /\
  (provider_list_positions provider api = Raise e ->
   list_positions_data provider api w = (Raise e, sent ListPositions w)).
Proof.
  intros He. split; intros Hp.
  - rewrite get_account_status_data_eq, Hp. by destruct e.
  - rewrite list_positions_data_eq, Hp. by destruct e.
Qed.

Section Field_failures.
Context `{PyRuntime}.

Lemma py_float_field_failure v e : py_float v = Raise e -> is_field_failure e = true.
Proof.
  destruct v; cbn; repeat case_match; intros; simplify_eq; done.
Qed.

Lemma float_attr_field_failure cls obj attr e :
  float_attr cls obj attr = Raise e -> is_field_failure e = true.
Proof.
  unfold float_attr, getattr. destruct (obj !! attr) as [v|]; cbn.
  - apply py_float_field_failure.
  - by intros [= <-].
Qed.

Lemma getattr_field_failure cls obj attr e :
  getattr cls obj attr = Raise e -> is_field_failure e = true.
Proof. unfold getattr. case_match; intros; by simplify_eq. Qed.

Lemma account_dict_field_failure account e :
  account_dict account = Raise e -> is_field_failure e = true.
Proof.
  unfold account_dict.
  repeat (match goal with
          | |- context [outcome_bind (?f ?c ?o ?a) _] =>
              let Hf := fresh "Hf" in
              destruct (f c o a) eqn:Hf; cbn [outcome_bind];
              [| intros; simplify_eq;
                 first [ by eapply getattr_field_failure
                       | by eapply float_attr_field_failure ] ]
          end).
  done.
Qed.

Lemma position_row_field_failure pos e :
  position_row pos = Raise e -> is_field_failure e = true.
Proof.
  unfold position_row.
  repeat (match goal with
          | |- context [outcome_bind (?f ?c ?o ?a) _] =>
              let Hf := fresh "Hf" in
              destruct (f c o a) eqn:Hf; cbn [outcome_bind];
              [| intros; simplify_eq;
                 first [ by eapply getattr_field_failure
                       | by eapply float_attr_field_failure ] ]
          end).
  done.
Qed.

End Field_failures.

(** C3 (amended).  When the provider's account, or one of its positions,
    has a numeric field that [float] rejects, the data function raises.
    What it raises is a failure of building the dictionary: the
    [ValueError], [TypeError] or [OverflowError] of a [float], or the
    [AttributeError] of an attribute the entity lacks.  That is no
    [APIError], so the function returns neither an error value nor a
    dictionary with a number put in the place of the field. *)
Theorem unparseable_field_raises `{PyRuntime} (provider : Provider) (api : REST)
    (w : world) :
  (forall account f v e,
     provider_get_account provider api = Return account ->
     f ∈ account_numeric_fields ->
     account !! f = Some v ->
     py_float v = Raise e ->
     exists e',
       is_field_failure e' = true /\
       is_APIError e' = false /\
       get_account_status_data provider api w = (Raise e', sent GetAccount w))
  /\
  (forall positions pos f v e,
     provider_list_positions provider api = Return positions ->
     pos ∈ positions ->
     f ∈ position_numeric_fields ->
     pos !! f = Some v ->
     py_float v = Raise e ->
     exists e',
       is_field_failure e' = true /\
       is_APIError e' = false /\
       list_positions_data provider api w = (Raise e', sent ListPositions w)).
Proof.
  split.
  - intros account f v e Hp Hf Hv He.
    rewrite get_account_status_data_eq, Hp.
    destruct (account_dict account) as [d|e'] eqn:Hd.
    + destruct (account_dict_Return _ _ Hd f Hf) as (v' & x & Hv' & Hx & _).
      congruence.
    + exists e'. split; [by eapply account_dict_field_failure|].
      split; [by eapply account_dict_Raise | done].
  - intros positions pos f v e Hp Hpos Hf Hv He.
    rewrite list_positions_data_eq, Hp.
    destruct (position_row pos) as [row|e0] eqn:Hrow.
    + destruct (position_row_Return _ _ Hrow f Hf) as (v' & x & Hv' & Hx & _).
      congruence.
    + destruct (outcome_map_fails position_row positions pos e0 Hpos Hrow) as [e' He'].
      rewrite He'. cbn. exists e'.
      apply outcome_map_Raise in He' as (pos' & _ & Hpos').
      split; [by eapply position_row_field_failure|].
      split; [by eapply position_row_Raise | done].
Qed.

(** C8.  Whenever the provider lists positions and [list_positions_data]
    returns, it returns as many dictionaries as positions, in order, and the
    [unrealized_plpc] of each is the float that [float] makes of the
    provider's field: nothing is multiplied.  It does return whenever every
    position has its seven fields and [float] accepts the six numeric ones. *)
Theorem unrealized_plpc_is_stored_unscaled `{PyRuntime} (provider : Provider)
    (api : REST) (w : world) (positions : list entity) :
  provider_list_positions provider api = Return positions ->
  (forall data w',
     list_positions_data provider api w = (Return data, w') ->
     exists rows,
       data = PList rows /\
       Forall2 (fun pos row => stored_as_float pos row "unrealized_plpc") positions rows)
  /\
  ((forall pos, pos ∈ positions ->
      is_Some (pos !! "symbol") /\
      forall f, f ∈ position_numeric_fields ->
        exists v x, pos !! f = Some v /\ py_float v = Return x) ->
   exists rows,
     list_positions_data provider api w = (Return (PList rows), sent ListPositions w)).
Proof.
  intros Hp. split.
  - intros data w'. rewrite list_positions_data_eq, Hp.
    destruct (outcome_map position_row positions) as [rows|e] eqn:Hrows; cbn; [|done].
    intros; simplify_eq. exists rows. split; [done|].
    apply outcome_map_Return in Hrows.
    eapply Forall2_impl; [done|]. cbn. intros pos row Hrow.
    eapply position_row_Return; [done|].
    unfold position_numeric_fields. repeat constructor.
  - intros Hall. rewrite list_positions_data_eq, Hp.
    destruct (outcome_map_total position_row positions) as [rows ->]; [|by eauto].
    intros pos Hpos. destruct (Hall pos Hpos) as [[s Hs] Hnum].
    unfold position_row, float_attr, getattr. rewrite Hs. cbn [outcome_bind].
    repeat (match goal with
            | |- context [pos !! ?f] =>
                let Hv := fresh in let Hx := fresh in
                destruct (Hnum f) as (? & ? & Hv & Hx);
                [unfold position_numeric_fields; repeat constructor|];
                rewrite Hv; cbn [outcome_bind]; rewrite Hx; cbn [outcome_bind]
            end).
    by eauto.
Qed.

(** ** Requests sent to the provider *)

Section Silent.
Context `{PyRuntime}.

Lemma silent_ret {A} (a : A) : silent (ret a).
Proof. by intros w. Qed.

Lemma silent_raise {A} e : silent (@raise A e).
Proof. by intros w. Qed.

Lemma silent_lift {A} (o : outcome A) : silent (lift o).
Proof. by intros w. Qed.

Lemma silent_print s : silent (print s).
Proof. by intros w. Qed.

Lemma silent_bind {A B} (c : M A) (k : A -> M B) :
  silent c -> (forall a, silent (k a)) -> silent (bind c k).
Proof.
  intros Hc Hk w. unfold bind. specialize (Hc w).
  destruct (c w) as [[a|e] w1]; cbn in *; [|done].
  by rewrite Hk.
Qed.

Lemma silent_try_except {A} (body : M A) catches handler :
  silent body -> (forall e, silent (handler e)) ->
  silent (try_except body catches handler).
Proof.
  intros Hb Hh w. unfold try_except. specialize (Hb w).
  destruct (body w) as [[a|e] w1]; cbn in *; [done|].
  destruct (catches e); [|done]. by rewrite Hh.
Qed.

Lemma silent_for_each {A} (l : list A) (body : A -> M unit) :
  (forall x, silent (body x)) -> silent (for_each l body).
Proof.
  intros Hbody. induction l as [|x l IH]; cbn.
  - apply silent_ret.
  - apply silent_bind; [done | by intros _].
Qed.

Lemma silent_field v spec : silent (field v spec).
Proof. apply silent_lift. Qed.

Lemma silent_order_cell order attr spec : silent (order_cell order attr spec).
Proof. apply silent_bind; [apply silent_lift | intros; apply silent_field]. Qed.

Lemma silent_orders_row order : silent (orders_row order).
Proof.
  unfold orders_row.
  repeat (apply silent_bind; [apply silent_order_cell | intros]).
  apply silent_print.
Qed.

Lemma silent_orders_header : silent orders_header.
Proof.
  unfold orders_header.
  repeat (apply silent_bind; [apply silent_field | intros]).
  apply silent_ret.
Qed.

(** after a request, a silent continuation: exactly that request *)
Lemma calls_send_then {A B} (r : request) (o : outcome A) (k : A -> M B) w :
  (forall a, silent (k a)) ->
  calls (snd (bind (bind (send r) (fun _ => lift o)) k w)) = calls w ++ [r].
Proof.
  intros Hk. unfold bind, send, lift. cbn.
  destruct o as [a|e]; [|done]. by rewrite Hk.
Qed.

End Silent.

(** C7 (amended).  [list_orders] checks nothing about [limit]: for every
    integer, zero and the negative ones included, it sends exactly one
    request to the provider, and that request carries the [limit] (and the
    [status]) it was given. *)
Theorem list_orders_forwards_any_limit `{PyRuntime} (provider : Provider) (api : REST)
    (args : list_args) (w : world) :
  calls (snd (list_orders provider api args w))
    = calls w ++ [ListOrders (status args) (limit args)].
Proof.
  rewrite list_orders_eq.
  change (calls w) with (calls (printed [list_orders_banner args] w)).
  generalize (printed [list_orders_banner args] w). intros w1.
  assert (calls (snd (list_orders_body provider api args w1))
          = calls w1 ++ [ListOrders (status args) (limit args)]) as Hbody.
  { unfold list_orders_body, api_list_orders.
    apply calls_send_then. intros orders. case_bool_decide.
    - apply silent_bind; [apply silent_field | intros; apply silent_print].
    - apply silent_bind; [apply silent_orders_header | intros].
      apply silent_bind; [apply silent_print | intros].
      apply silent_bind; [apply silent_print | intros].
      apply silent_for_each, silent_orders_row. }
  unfold bind at 1, try_except.
  destruct (list_orders_body provider api args w1) as [[u|e] w2]; cbn in *; [done|].
  by destruct (is_APIError e).
Qed.

(** ** The account command *)

Section Account_command.
Context `{PyRuntime} (provider : Provider).

Lemma printed_cons line lines w :
  printed (line :: lines) w = printed lines (printed [line] w).
Proof. unfold printed; cbn. by rewrite <- app_assoc. Qed.

Lemma account_dict_shape account d :
  account_dict account = Return d ->
  exists id status currency pv bp cash eq pdt,
    d = account_status id status currency pv bp cash eq pdt.
Proof.
  unfold account_dict.
  repeat (match goal with
          | |- context [outcome_bind (?f ?c ?o ?a) _] =>
              destruct (f c o a); cbn [outcome_bind]; [|done]
          end).
  intros; simplify_eq. by repeat eexists.
Qed.

(** The success branch prints three lines and then stops at the first
    amount, whose format specification Python rejects. *)
Lemma get_account_status_success_eq id status currency pv bp cash eq pdt w :
  get_account_status_success (account_status id status currency pv bp cash eq pdt) w
    = (Raise invalid_amount_spec, printed (account_lines id status currency) w).
Proof.
  unfold account_lines. do 2 rewrite printed_cons.
  reflexivity.
Qed.

(** A returned value of [get_account_status_data] is an error value or
    the dictionary of an account. *)
Lemma get_account_status_data_Return api w data w' :
  get_account_status_data provider api w = (Return data, w') ->
  w' = sent GetAccount w /\
  ((exists msg, data = error_value msg) \/
   (exists id status currency pv bp cash eq pdt,
      data = account_status id status currency pv bp cash eq pdt)).
Proof.
  rewrite get_account_status_data_eq.
  destruct (provider_get_account provider api) as [account|e].
  - intros [= Hd <-]. split; [done|]. right. by eapply account_dict_shape.
  - destruct e; intros; simplify_eq. split; [done|]. left. by eexists.
Qed.

End Account_command.

(** C9 (amended).  Whenever [get_account_status_data] returns, the account
    command takes one of two ways.  On an error value it prints the error
    line and ends normally.  On an account dictionary, which has no key
    [daytrade_count], it prints three lines and stops at the portfolio
    value, whose format specification [", .2f"] Python rejects with a
    [ValueError]: the line that reads [daytrade_count] is never reached. *)
Theorem account_command_success_branch_fails `{PyRuntime} (provider : Provider)
    (api : REST) (w : world) (data : pyval) (w' : world) :
  get_account_status_data provider api w = (Return data, w') ->
  (py_contains "error" data = Return false ->
   py_getitem data "daytrade_count" = Raise (KeyError "daytrade_count") /\
   exists id status currency,
     py_getitem data "id" = Return id /\
     py_getitem data "status" = Return status /\
     py_getitem data "currency" = Return currency /\
     get_account_status provider api w =
       (Raise invalid_amount_spec, printed (account_lines id status currency) w'))
  /\
  (py_contains "error" data = Return true ->
   exists msg,
     data = error_value msg /\
     get_account_status provider api w =
       (Return PNone, printed ["🔴 API Error fetching account: " +:+ msg] w')).
Proof.
  intros Hdata.
  destruct (get_account_status_data_Return _ _ _ _ _ Hdata)
    as [_ [[msg ->] | (id & status & currency & pv & bp & cash & eq & pdt & ->)]].
  - split; [intros [=]|]. intros _. exists msg. split; [done|].
    unfold get_account_status. by erewrite bind_Return by exact Hdata.
  - split; [|intros [=]]. intros _. split; [done|].
    exists id, status, currency. repeat split.
    unfold get_account_status. erewrite bind_Return by exact Hdata.
    unfold bind at 1. cbn [lift].
    change (py_contains "error" (account_status id status currency pv bp cash eq pdt))
      with (@Return bool false).
    cbn iota. unfold bind at 1.
    by rewrite get_account_status_success_eq.
Qed.

(** ** The HTTP front-ends *)

Section Front_ends.
Context `{PyRuntime} (provider : Provider).

Lemma position_row_shape pos row :
  position_row pos = Return row ->
  exists symbol qty mv aep cp upl uplpc,
    row = position_value symbol qty mv aep cp upl uplpc.
Proof.
  unfold position_row.
  repeat (match goal with
          | |- context [outcome_bind (?f ?c ?o ?a) _] =>
              destruct (f c o a); cbn [outcome_bind]; [|done]
          end).
  intros; simplify_eq. by repeat eexists.
Qed.

Lemma rows_hold_no_error_string positions rows :
  outcome_map position_row positions = Return rows ->
  existsb (fun x => py_eq_str x "error") rows = false.
Proof.
  intros Hrows%outcome_map_Return.
  induction Hrows as [|pos row positions rows Hrow _ IH]; [done|].
  destruct (position_row_shape _ _ Hrow) as (? & ? & ? & ? & ? & ? & ? & ->). by cbn.
Qed.

(** A returned value of [list_positions_data] is an error value or a list
    of position dictionaries. *)
Lemma list_positions_data_Return api w data w' :
  list_positions_data provider api w = (Return data, w') ->
  w' = sent ListPositions w /\
  ((exists msg, data = error_value msg) \/
   (exists rows, data = PList rows /\
                 existsb (fun x => py_eq_str x "error") rows = false /\
                 Forall (fun row => exists symbol qty mv aep cp upl uplpc,
                           row = position_value symbol qty mv aep cp upl uplpc) rows)).
Proof.
  rewrite list_positions_data_eq.
  destruct (provider_list_positions provider api) as [positions|e].
  - destruct (outcome_map position_row positions) as [rows|e] eqn:Hrows; cbn; [|done].
    intros [= <- <-]. split; [done|]. right. exists rows. split; [done|].
    split; [by eapply rows_hold_no_error_string|].
    apply outcome_map_Return in Hrows.
    induction Hrows as [|pos row positions rows Hrow _ IH]; constructor; [|done].
    by eapply position_row_shape.
  - destruct e; intros; simplify_eq. split; [done|]. left. by eexists.
Qed.

(** The loop of the positions command stops in its first round, at the
    amount formatted with [", .2f"]: the percentage of the next line is
    never computed. *)
Lemma positions_row_eq symbol qty mv aep cp upl uplpc w :
  positions_row (position_value symbol qty mv aep cp upl uplpc) w
    = (Raise invalid_amount_spec, w).
Proof. reflexivity. Qed.

Lemma list_positions_stops_at_first_row api w row rows w' :
  list_positions_data provider api w = (Return (PList (row :: rows)), w') ->
  list_positions provider api w
    = (Raise invalid_amount_spec, printed positions_lines w').
Proof.
  intros Hdata.
  destruct (list_positions_data_Return _ _ _ _ Hdata)
    as [_ [[msg [=]] | (rows' & [= <-] & Hrows & Hshape)]].
  apply Forall_cons in Hshape as [(? & ? & ? & ? & ? & ? & ? & ->) _].
  unfold list_positions. erewrite bind_Return by exact Hdata.
  unfold bind at 1. cbn [lift py_contains]. rewrite Hrows. cbn iota.
  unfold positions_lines. do 2 rewrite printed_cons.
  reflexivity.
Qed.

(** [Alpaca.py] answers by the kind of value the data function returned:
    500 with an error value, 200 with any other value. *)
Lemma Alpaca_py_status_follows_result api w data w' :
  (get_account_status_data provider api w = (Return data, w') ->
   ((exists msg, data = error_value msg) ->
    Alpaca.get_account_info provider api w = (Return (data, 500), w')) /\
   ((forall msg, data <> error_value msg) ->
    Alpaca.get_account_info provider api w = (Return (data, 200), w')))
  /\
  (list_positions_data provider api w = (Return data, w') ->
   ((exists msg, data = error_value msg) ->
    Alpaca.get_positions provider api w = (Return (data, 500), w')) /\
   ((forall msg, data <> error_value msg) ->
    Alpaca.get_positions provider api w = (Return (data, 200), w'))).
Proof.
  split; intros Hdata.
  - unfold Alpaca.get_account_info. erewrite bind_Return by exact Hdata.
    destruct (get_account_status_data_Return _ _ _ _ _ Hdata)
      as [_ [[msg ->] | (id & status & currency & pv & bp & cash & eq & pdt & ->)]].
    + split; [done|]. intros Hne. by destruct (Hne msg).
    + split; [|done]. intros [msg [=]].
  - unfold Alpaca.get_positions. erewrite bind_Return by exact Hdata.
    destruct (list_positions_data_Return _ _ _ _ Hdata)
      as [_ [[msg ->] | (rows & -> & Hrows & _)]].
    + split; [done|]. intros Hne. by destruct (Hne msg).
    + split; [intros [msg [=]]|]. intros _.
      unfold bind, lift. cbn. by rewrite Hrows.
Qed.

(** [api.py] answers 200 with whatever the data function returned, an
    error value included. *)
Lemma api_py_status_ignores_result trading_client w data w' :
  (get_account_status_data provider trading_client w = (Return data, w') ->
   api.get_account_info provider trading_client w = (Return (data, 200), w'))
  /\
  (list_positions_data provider trading_client w = (Return data, w') ->
   api.get_positions provider trading_client w = (Return (data, 200), w')).
Proof.
  split; intros Hdata.
  - unfold api.get_account_info. apply try_except_Return.
    by erewrite bind_Return by exact Hdata.
  - unfold api.get_positions. apply try_except_Return.
    by erewrite bind_Return by exact Hdata.
Qed.

End Front_ends.


(** * Further properties *)

(** ** What the data functions send and return *)

(** X1.  Whatever the provider answers, and also when they raise, the two
    data functions print nothing and send exactly one request. *)
Theorem data_functions_send_one_request `{PyRuntime} (provider : Provider) (api : REST)
    (w : world) :
  snd (get_account_status_data provider api w) = sent GetAccount w /\
  snd (list_positions_data provider api w) = sent ListPositions w.
Proof.
  by rewrite get_account_status_data_eq, list_positions_data_eq.
Qed.

(** X2.  When the account has its eight attributes and [float] accepts the
    four amounts, [get_account_status_data] returns the dictionary of the
    eight keys: identifier, status, currency and the day-trader flag as the
    provider gave them, the amounts as floats. *)
Theorem get_account_status_data_complete `{PyRuntime} (provider : Provider) (api : REST)
    (w : world) (account : entity) (id status currency pdt : pyval)
    (v_pv v_bp v_cash v_eq : pyval) (pv bp cash eq : float) :
  provider_get_account provider api = Return account ->
  account !! "id" = Some id ->
  account !! "status" = Some status ->
  account !! "currency" = Some currency ->
  account !! "pattern_day_trader" = Some pdt ->
  account !! "portfolio_value" = Some v_pv -> py_float v_pv = Return pv ->
  account !! "buying_power" = Some v_bp -> py_float v_bp = Return bp ->
  account !! "cash" = Some v_cash -> py_float v_cash = Return cash ->
  account !! "equity" = Some v_eq -> py_float v_eq = Return eq ->
  get_account_status_data provider api w
    = (Return (account_status id status currency pv bp cash eq pdt), sent GetAccount w).
Proof.
  intros Hp Hid Hstatus Hcurrency Hpdt Hpv Hpv' Hbp Hbp' Hcash Hcash' Heq Heq'.
  rewrite get_account_status_data_eq, Hp.
  unfold account_dict, float_attr, getattr.
  rewrite Hid, Hstatus, Hcurrency, Hpv, Hbp, Hcash, Heq, Hpdt. cbn [outcome_bind].
  by rewrite Hpv', Hbp', Hcash', Heq'.
Qed.

(** X3.  A value returned by [get_account_status_data] is never a part of
    an account: it is the error value of a provider failure, or the whole
    dictionary, every amount of which went through [float]. *)
Theorem get_account_status_data_returns_whole `{PyRuntime} (provider : Provider)
    (api : REST) (w : world) (data : pyval) (w' : world) :
  get_account_status_data provider api w = (Return data, w') ->
  (exists msg,
     provider_get_account provider api = Raise (APIError msg) /\
     data = error_value msg)
  \/
  (exists account id status currency pv bp cash eq pdt,
     provider_get_account provider api = Return account /\
     data = account_status id status currency pv bp cash eq pdt /\
     account !! "id" = Some id /\
     account !! "status" = Some status /\
     account !! "currency" = Some currency /\
     account !! "pattern_day_trader" = Some pdt /\
     forall f, f ∈ account_numeric_fields -> stored_as_float account data f).
Proof.
  rewrite get_account_status_data_eq.
  destruct (provider_get_account provider api) as [account|e] eqn:Hp.
  - intros [= Hd _]. right.
    pose proof (account_dict_Return _ _ Hd) as Hnum.
    revert Hd Hnum. unfold account_dict, getattr.
    destruct (account !! "id") as [id|] eqn:Hid; cbn [outcome_bind]; [|done].
    destruct (account !! "status") as [status|] eqn:Hstatus; cbn [outcome_bind]; [|done].
    destruct (account !! "currency") as [currency|] eqn:Hcurrency;
      cbn [outcome_bind]; [|done].
    destruct (float_attr "Account" account "portfolio_value") as [pv|];
      cbn [outcome_bind]; [|done].
    destruct (float_attr "Account" account "buying_power") as [bp|];
      cbn [outcome_bind]; [|done].
    destruct (float_attr "Account" account "cash") as [cash|]; cbn [outcome_bind]; [|done].
    destruct (float_attr "Account" account "equity") as [eq|]; cbn [outcome_bind]; [|done].
    destruct (account !! "pattern_day_trader") as [pdt|] eqn:Hpdt;
      cbn [outcome_bind]; [|done].
    intros [= <-] Hnum.
    exists account, id, status, currency, pv, bp, cash, eq, pdt. by repeat split.
  - destruct e; intros; simplify_eq. left. by eexists.
Qed.

Section Position_rows.
Context `{PyRuntime}.

Lemma position_row_symbol pos row :
  position_row pos = Return row ->
  exists symbol, pos !! "symbol" = Some symbol /\ py_getitem row "symbol" = Return symbol.
Proof.
  unfold position_row, getattr.
  destruct (pos !! "symbol") as [symbol|]; cbn [outcome_bind]; [|done].
  repeat (match goal with
          | |- context [outcome_bind (?f ?c ?o ?a) _] =>
              destruct (f c o a); cbn [outcome_bind]; [|done]
          end).
  intros; simplify_eq. by exists symbol.
Qed.

End Position_rows.

(** X4.  Whenever the provider lists positions and [list_positions_data]
    returns, the list has one dictionary per position, in the provider's
    order; each has the provider's symbol as it came and, for each of the
    six numeric fields, the float of the provider's value.  No positions
    give the empty list, not an error value. *)
Theorem list_positions_data_rows `{PyRuntime} (provider : Provider) (api : REST)
    (w : world) (positions : list entity) (data : pyval) (w' : world) :
  provider_list_positions provider api = Return positions ->
  list_positions_data provider api w = (Return data, w') ->
  exists rows,
    data = PList rows /\
    length rows = length positions /\
    (positions = [] -> rows = []) /\
    Forall2 (fun pos row =>
               (exists symbol, pos !! "symbol" = Some symbol /\
                               py_getitem row "symbol" = Return symbol) /\
               forall f, f ∈ position_numeric_fields -> stored_as_float pos row f)
      positions rows.
Proof.
  intros Hp. rewrite list_positions_data_eq, Hp.
  destruct (outcome_map position_row positions) as [rows|e] eqn:Hrows; cbn; [|done].
  intros [= <- _]. exists rows. apply outcome_map_Return in Hrows.
  split; [done|]. split; [symmetry; by eapply Forall2_length|].
  split; [intros ->; by apply Forall2_nil_inv_l in Hrows|].
  eapply Forall2_impl; [done|]. cbn. intros pos row Hrow.
  split; [by apply position_row_symbol | by apply position_row_Return].
Qed.

(** ** The positions command *)

(** X5.  The three ways of the positions command.  On a provider failure it
    prints the error line; with no position it prints that none was found;
    both end normally.  With one position or more it prints the title, the
    header and the rule and then stops at the first row, whose amount has a
    format specification Python rejects: no row is ever printed. *)
Theorem list_positions_outcomes `{PyRuntime} (provider : Provider) (api : REST)
    (w : world) :
  (forall msg,
     provider_list_positions provider api = Raise (APIError msg) ->
     list_positions provider api w =
       (Return PNone,
        printed ["🔴 API Error listing positions: " +:+ msg] (sent ListPositions w)))
  /\
  (provider_list_positions provider api = Return [] ->
   list_positions provider api w =
     (Return PNone, printed ["No open positions found."] (sent ListPositions w)))
  /\
  (forall row rows w',
     list_positions_data provider api w = (Return (PList (row :: rows)), w') ->
     list_positions provider api w =
       (Raise invalid_amount_spec, printed positions_lines (sent ListPositions w))).
Proof.
  split; [|split].
  - intros msg Hp. unfold list_positions.
    erewrite bind_Return by (rewrite list_positions_data_eq, Hp; reflexivity).
    reflexivity.
  - intros Hp. unfold list_positions.
    erewrite bind_Return by (rewrite list_positions_data_eq, Hp; reflexivity).
    reflexivity.
  - intros row rows w' Hdata.
    rewrite (list_positions_stops_at_first_row _ _ _ _ _ _ Hdata).
    by destruct (list_positions_data_Return _ _ _ _ _ Hdata) as [-> _].
Qed.

(** ** The orders commands *)

Section Orders.
Context `{PyRuntime} (provider : Provider).

Lemma pad_ljust (n : nat) (s : string) :
  Format.pad (Format.mk_format_spec " " "<" false false None (Some (Z.of_nat n))
                Format.NoSep None (Some "s"%char)) s
  = ljust n s.
Proof.
  unfold Format.pad, ljust. cbn [Format.width Format.align Format.fill_char].
  change (Format.is_char ">" "<") with false.
  change (Format.is_char "^" "<") with false. cbn iota.
  replace (Z.to_nat (Z.of_nat n `max` Z.of_nat (PyStr.length s)
                     - Z.of_nat (PyStr.length s) - 0))
    with (n - PyStr.length s)%nat by lia.
  reflexivity.
Qed.

Lemma format_ljust (s : string) :
  Format.format_str s "<30" = Return (ljust 30 s) /\
  Format.format_str s "<12" = Return (ljust 12 s) /\
  Format.format_str s "<10" = Return (ljust 10 s) /\
  Format.format_str s "<8" = Return (ljust 8 s).
Proof.
  repeat split.
  - exact (f_equal Return (pad_ljust 30 s)).
  - exact (f_equal Return (pad_ljust 12 s)).
  - exact (f_equal Return (pad_ljust 10 s)).
  - exact (f_equal Return (pad_ljust 8 s)).
Qed.

(** a field that is a text or [None] is shown left-justified, ["N/A"] in
    the place of [None] and of the empty text *)
Lemma order_cell_ljust order attr v w :
  order !! attr = Some v -> text_or_none v ->
  order_cell order attr "<30" w = (Return (ljust 30 (cell_text order attr)), w) /\
  order_cell order attr "<12" w = (Return (ljust 12 (cell_text order attr)), w) /\
  order_cell order attr "<10" w = (Return (ljust 10 (cell_text order attr)), w) /\
  order_cell order attr "<8" w = (Return (ljust 8 (cell_text order attr)), w).
Proof.
  intros Hv Htext. unfold order_cell, cell_text, bind, lift, getattr, field.
  rewrite Hv.
  assert (exists s, py_or v (PStr "N/A") = PStr s /\
                    s = match v with
                        | PStr s => if decide (s = "") then "N/A" else s
                        | _ => "N/A"
                        end) as (s & -> & <-).
  { destruct v as [| | | |s| |]; try done; [by eexists|].
    unfold py_or, py_truthy. case_bool_decide; case_decide; try done; by eexists. }
  unfold py_format.
  destruct (format_ljust s) as (H30 & H12 & H10 & H8).
  repeat split; cbn; by rewrite ?H30, ?H12, ?H10, ?H8.
Qed.

Lemma orders_row_line order w :
  order_of_texts order ->
  orders_row order w = (Return tt, printed [order_line order] w).
Proof.
  intros Horder. unfold orders_row, order_line.
  assert (forall attr, attr ∈ order_attributes ->
            order_cell order attr "<30" w = (Return (ljust 30 (cell_text order attr)), w) /\
            order_cell order attr "<12" w = (Return (ljust 12 (cell_text order attr)), w) /\
            order_cell order attr "<10" w = (Return (ljust 10 (cell_text order attr)), w) /\
            order_cell order attr "<8" w = (Return (ljust 8 (cell_text order attr)), w))
    as Hcell.
  { intros attr Hattr. destruct (Horder attr Hattr) as (v & Hv & Htext).
    by eapply order_cell_ljust. }
  destruct (Hcell "id") as (Hid & _); [in_literal_list|].
  destruct (Hcell "symbol") as (_ & _ & Hsymbol & _); [in_literal_list|].
  destruct (Hcell "qty") as (_ & _ & _ & Hqty); [in_literal_list|].
  destruct (Hcell "side") as (_ & _ & _ & Hside); [in_literal_list|].
  destruct (Hcell "type") as (_ & _ & Htype & _); [in_literal_list|].
  destruct (Hcell "status") as (_ & Hstatus & _); [in_literal_list|].
  erewrite bind_Return by exact Hid.
  erewrite bind_Return by exact Hsymbol.
  erewrite bind_Return by exact Hqty.
  erewrite bind_Return by exact Hside.
  erewrite bind_Return by exact Htype.
  erewrite bind_Return by exact Hstatus.
  reflexivity.
Qed.

Lemma printed_app lines lines' w :
  printed lines' (printed lines w) = printed (lines ++ lines') w.
Proof. unfold printed; cbn. by rewrite <- app_assoc. Qed.

Lemma for_each_orders_row orders w :
  Forall order_of_texts orders ->
  for_each orders orders_row w = (Return tt, printed (map order_line orders) w).
Proof.
  intros Horders. revert w.
  induction Horders as [|order orders Horder _ IH]; intros w.
  - unfold printed; cbn. rewrite app_nil_r. by destruct w.
  - cbn [for_each map]. erewrite bind_Return by by apply orders_row_line.
    rewrite IH. by rewrite printed_app.
Qed.

Lemma orders_header_eq w : orders_header w = (Return orders_header_line, w).
Proof. reflexivity. Qed.

End Orders.

Lemma list_orders_body_table `{PyRuntime} (provider : Provider) (api : REST)
    (args : list_args) (w : world) (orders : list entity) :
  provider_list_orders provider api (status args) (limit args) = Return orders ->
  Forall order_of_texts orders ->
  list_orders_body provider api args w =
    (Return tt,
     printed
       match orders with
       | [] => ["No orders found with status '" +:+ status args +:+ "'."]
       | _ => orders_header_line :: PyStr.repeat_char "-" 80 :: map order_line orders
       end
       (sent (ListOrders (status args) (limit args)) w)).
Proof.
  intros Hp Horders.
  unfold list_orders_body, api_list_orders, send, lift.
  unfold bind at 1 2. cbn [fst snd]. rewrite Hp.
  destruct orders as [|order orders]; [reflexivity|].
  rewrite (printed_cons orders_header_line), (printed_cons (PyStr.repeat_char "-" 80)).
  change (bool_decide (length (order :: orders) = 0%nat)) with false. cbn iota.
  unfold bind at 1. rewrite orders_header_eq.
  unfold bind at 1, print at 1. unfold bind at 1, print at 1.
  rewrite for_each_orders_row by done. reflexivity.
Qed.

(** X6.  What [list_orders] prints when the provider answers with orders
    whose six fields are texts or [None].  With no order: the title and one
    line saying that none was found with that status.  Otherwise: the title,
    the header, a rule of 80 dashes and one line per order, in the
    provider's order, each field left-justified in its column, with ["N/A"]
    in the place of [None] and of the empty text.  It returns [None]. *)
Theorem list_orders_table `{PyRuntime} (provider : Provider) (api : REST)
    (args : list_args) (w : world) (orders : list entity) :
  provider_list_orders provider api (status args) (limit args) = Return orders ->
  Forall order_of_texts orders ->
  list_orders provider api args w =
    (Return PNone,
     printed
       (list_orders_banner args ::
        match orders with
        | [] => ["No orders found with status '" +:+ status args +:+ "'."]
        | _ => orders_header_line :: PyStr.repeat_char "-" 80 :: map order_line orders
        end)
       (sent (ListOrders (status args) (limit args)) w)).
Proof.
  intros Hp Horders. rewrite list_orders_eq.
  erewrite bind_Return
    by (apply try_except_Return; by apply list_orders_body_table).
  unfold ret, printed, sent; cbn. by rewrite <- app_assoc.
Qed.

Section Place_order.
Context `{PyRuntime} (provider : Provider).

Lemma silent_item data k : silent (item data k).
Proof. apply silent_lift. Qed.

Lemma silent_order_field order attr : silent (order_field order attr).
Proof. apply silent_bind; [apply silent_lift | intros; apply silent_field]. Qed.

Lemma place_order_body_calls api args w :
  calls (snd (place_order_body provider api args w))
    = calls w ++ [SubmitOrder (symbol args) (qty args) (side args) (type args)
                    (time_in_force args)].
Proof.
  unfold place_order_body, api_submit_order.
  apply calls_send_then. intros order.
  repeat (first [ apply silent_print
                | apply silent_bind; [first [apply silent_print | apply silent_order_field]
                                     | intros ] ]).
Qed.

Lemma place_order_calls api args w :
  calls (snd (place_order provider api args w))
    = calls w ++ [SubmitOrder (symbol args) (qty args) (side args) (type args)
                    (time_in_force args)].
Proof.
  rewrite place_order_eq.
  change (calls w) with (calls (printed [place_order_banner args] w)).
  generalize (printed [place_order_banner args] w). intros w1.
  pose proof (place_order_body_calls api args w1) as Hbody.
  unfold bind at 1, try_except.
  destruct (place_order_body provider api args w1) as [[u|e] w2]; cbn in *; [done|].
  by destruct (is_APIError e).
Qed.

Lemma list_orders_calls api args w :
  calls (snd (list_orders provider api args w))
    = calls w ++ [ListOrders (status args) (limit args)].
Proof.
  rewrite list_orders_eq.
  change (calls w) with (calls (printed [list_orders_banner args] w)).
  generalize (printed [list_orders_banner args] w). intros w1.
  assert (calls (snd (list_orders_body provider api args w1))
          = calls w1 ++ [ListOrders (status args) (limit args)]) as Hbody.
  { unfold list_orders_body, api_list_orders.
    apply calls_send_then. intros orders. case_bool_decide.
    - apply silent_bind; [apply silent_field | intros; apply silent_print].
    - apply silent_bind; [apply silent_orders_header | intros].
      apply silent_bind; [apply silent_print | intros].
      apply silent_bind; [apply silent_print | intros].
      apply silent_for_each, silent_orders_row. }
  unfold bind at 1, try_except.
  destruct (list_orders_body provider api args w1) as [[u|e] w2]; cbn in *; [done|].
  by destruct (is_APIError e).
Qed.

Lemma silent_get_account_status_success data : silent (get_account_status_success data).
Proof.
  unfold get_account_status_success.
  repeat (first [ apply silent_print
                | apply silent_bind;
                  [first [apply silent_print | apply silent_item | apply silent_field]
                  | intros ] ]).
Qed.

Lemma silent_positions_row pos : silent (positions_row pos).
Proof.
  unfold positions_row.
  repeat (first [ apply silent_print
                | apply silent_bind;
                  [first [apply silent_print | apply silent_item | apply silent_field
                         | apply silent_lift]
                  | intros ] ]).
Qed.

Lemma silent_positions_header : silent positions_header.
Proof.
  unfold positions_header.
  repeat (apply silent_bind; [apply silent_field | intros]).
  apply silent_ret.
Qed.

Lemma get_account_status_calls api w :
  calls (snd (get_account_status provider api w)) = calls w ++ [GetAccount].
Proof.
  unfold get_account_status. unfold bind at 1.
  rewrite get_account_status_data_eq.
  change (calls w ++ [GetAccount]) with (calls (sent GetAccount w)).
  generalize (sent GetAccount w). intros w1.
  match goal with |- context [match ?o with Return _ => _ | Raise _ => _ end] =>
    destruct o as [data|e] end; [|done].
  apply silent_bind; [apply silent_lift | intros is_error].
  apply silent_bind; [|intros; apply silent_ret].
  destruct is_error.
  - apply silent_bind; [apply silent_item | intros].
    apply silent_bind; [apply silent_field | intros; apply silent_print].
  - apply silent_get_account_status_success.
Qed.

Lemma list_positions_calls api w :
  calls (snd (list_positions provider api w)) = calls w ++ [ListPositions].
Proof.
  unfold list_positions. unfold bind at 1.
  rewrite list_positions_data_eq.
  change (calls w ++ [ListPositions]) with (calls (sent ListPositions w)).
  generalize (sent ListPositions w). intros w1.
  match goal with |- context [match ?o with Return _ => _ | Raise _ => _ end] =>
    destruct o as [data|e] end; [|done].
  apply silent_bind; [apply silent_lift | intros is_error].
  apply silent_bind; [|intros; apply silent_ret].
  destruct is_error.
  - apply silent_bind; [apply silent_item | intros].
    apply silent_bind; [apply silent_field | intros; apply silent_print].
  - destruct (negb (py_truthy data)); [apply silent_print|].
    apply silent_bind; [apply silent_print | intros].
    apply silent_bind; [apply silent_positions_header | intros].
    apply silent_bind; [apply silent_print | intros].
    apply silent_bind; [apply silent_print | intros].
    apply silent_bind; [apply silent_lift | intros].
    apply silent_for_each, silent_positions_row.
Qed.

End Place_order.

(** X7.  [place_order] sends exactly one order to the provider, with the
    five values it was given, whatever the provider answers and however the
    printing goes.  It keeps no record of what it sent: placing the same
    order again sends it again. *)
Theorem place_order_sends_each_time `{PyRuntime} (provider : Provider) (api : REST)
    (args : place_args) (w : world) :
  let order := SubmitOrder (symbol args) (qty args) (side args) (type args)
                 (time_in_force args) in
  calls (snd (place_order provider api args w)) = calls w ++ [order] /\
  calls (snd (place_order provider api args (snd (place_order provider api args w))))
    = calls w ++ [order; order].
Proof.
  cbv zeta. split; [apply place_order_calls|].
  rewrite !place_order_calls. by rewrite <- app_assoc.
Qed.

Lemma place_order_body_confirmation `{PyRuntime} (provider : Provider) (api : REST)
    (args : place_args) (w : world) (order : entity)
    (id o_symbol o_qty o_side o_type o_status : pyval) :
  provider_submit_order provider api (symbol args) (qty args) (side args) (type args)
    (time_in_force args) = Return order ->
  order !! "id" = Some id ->
  order !! "symbol" = Some o_symbol ->
  order !! "qty" = Some o_qty ->
  order !! "side" = Some o_side ->
  order !! "type" = Some o_type ->
  order !! "status" = Some o_status ->
  place_order_body provider api args w =
    (Return tt,
     printed (confirmation_lines id o_symbol o_qty o_side o_type o_status)
       (sent (SubmitOrder (symbol args) (qty args) (side args) (type args)
                (time_in_force args)) w)).
Proof.
  intros Hp Hid Hsymbol Hqty Hside Htype Hstatus.
  unfold place_order_body, api_submit_order, send, lift.
  unfold bind at 1 2. cbn [fst snd]. rewrite Hp.
  unfold order_field, getattr.
  rewrite Hid, Hsymbol, Hqty, Hside, Htype, Hstatus.
  unfold confirmation_lines.
  rewrite (printed_cons "✅ Order submitted successfully!"),
    (printed_cons ("    ID:           " +:+ py_str id)),
    (printed_cons ("    Symbol:       " +:+ py_str o_symbol)),
    (printed_cons ("    Qty:          " +:+ py_str o_qty)),
    (printed_cons ("    Side:         " +:+ py_str o_side)),
    (printed_cons ("    Type:         " +:+ py_str o_type)).
  reflexivity.
Qed.

(** X8.  When the provider accepts the order and the answer has the six
    fields, [place_order] prints the title, the line of success and the six
    fields as the provider gave them, and returns [None]. *)
Theorem place_order_confirmation `{PyRuntime} (provider : Provider) (api : REST)
    (args : place_args) (w : world) (order : entity)
    (id o_symbol o_qty o_side o_type o_status : pyval) :
  provider_submit_order provider api (symbol args) (qty args) (side args) (type args)
    (time_in_force args) = Return order ->
  order !! "id" = Some id ->
  order !! "symbol" = Some o_symbol ->
  order !! "qty" = Some o_qty ->
  order !! "side" = Some o_side ->
  order !! "type" = Some o_type ->
  order !! "status" = Some o_status ->
  place_order provider api args w =
    (Return PNone,
     printed (place_order_banner args ::
              confirmation_lines id o_symbol o_qty o_side o_type o_status)
       (sent (SubmitOrder (symbol args) (qty args) (side args) (type args)
                (time_in_force args)) w)).
Proof.
  intros Hp Hid Hsymbol Hqty Hside Htype Hstatus. rewrite place_order_eq.
  erewrite bind_Return
    by (apply try_except_Return; by eapply place_order_body_confirmation).
  unfold ret, printed, sent; cbn. by rewrite <- app_assoc.
Qed.

(** X9.  With both credentials in the environment, [main] sends exactly one
    request for the command it runs: the account, the positions, the orders
    with the given status and limit, or the order with its five values. *)
Theorem main_sends_one_request `{PyRuntime} (provider : Provider)
    (environ : gmap string string) (cmd : command) (w : world) :
  is_Some (environ !! "APCA_API_KEY_ID") ->
  is_Some (environ !! "APCA_API_SECRET_KEY") ->
  calls (snd (main provider environ cmd w)) = calls w ++ [request_of cmd].
Proof.
  intros [k Hk] [s Hs]. unfold main.
  erewrite bind_Return by by apply setup_api_client_ok.
  destruct cmd; cbn [request_of].
  - apply get_account_status_calls.
  - apply list_positions_calls.
  - apply list_orders_calls.
  - apply place_order_calls.
Qed.

(** ** The routes of the two front-ends *)

(** X10.  The two routes of [Alpaca.py] answer by what the data function
    did: status 500 with the error value when it returned one, status 200
    with the value when it returned anything else; when it raised, the route
    raises the same failure and makes no answer of its own. *)
Theorem Alpaca_py_routes_answer `{PyRuntime} (provider : Provider) (api : REST)
    (w w' : world) :
  (forall msg,
     get_account_status_data provider api w = (Return (error_value msg), w') ->
     Alpaca.get_account_info provider api w = (Return (error_value msg, 500), w')) /\
  (forall data,
     get_account_status_data provider api w = (Return data, w') ->
     (forall msg, data <> error_value msg) ->
     Alpaca.get_account_info provider api w = (Return (data, 200), w')) /\
  (forall e,
     get_account_status_data provider api w = (Raise e, w') ->
     Alpaca.get_account_info provider api w = (Raise e, w')) /\
  (forall msg,
     list_positions_data provider api w = (Return (error_value msg), w') ->
     Alpaca.get_positions provider api w = (Return (error_value msg, 500), w')) /\
  (forall data,
     list_positions_data provider api w = (Return data, w') ->
     (forall msg, data <> error_value msg) ->
     Alpaca.get_positions provider api w = (Return (data, 200), w')) /\
  (forall e,
     list_positions_data provider api w = (Raise e, w') ->
     Alpaca.get_positions provider api w = (Raise e, w')).
Proof.
  repeat split.
  - intros msg Hdata.
    apply (Alpaca_py_status_follows_result provider api w _ w'); [done | by eexists].
  - intros data Hdata Hne.
    by apply (Alpaca_py_status_follows_result provider api w data w').
  - intros e Hdata. by apply bind_Raise.
  - intros msg Hdata.
    apply (Alpaca_py_status_follows_result provider api w _ w'); [done | by eexists].
  - intros data Hdata Hne.
    by apply (Alpaca_py_status_follows_result provider api w data w').
  - intros e Hdata. by apply bind_Raise.
Qed.

(** X11.  The two routes of [api.py] answer 500 only when the data function
    raises: the body is then [{"error": str(e)}] for the raised [Exception].
    Whatever the data function returns is sent with status 200. *)
Theorem api_py_routes_answer `{PyRuntime} (provider : Provider) (trading_client : REST)
    (w w' : world) :
  (forall data,
     get_account_status_data provider trading_client w = (Return data, w') ->
     api.get_account_info provider trading_client w = (Return (data, 200), w')) /\
  (forall e,
     get_account_status_data provider trading_client w = (Raise e, w') ->
     is_Exception e = true ->
     api.get_account_info provider trading_client w
       = (Return (error_value (exn_str e), 500), w')) /\
  (forall data,
     list_positions_data provider trading_client w = (Return data, w') ->
     api.get_positions provider trading_client w = (Return (data, 200), w')) /\
  (forall e,
     list_positions_data provider trading_client w = (Raise e, w') ->
     is_Exception e = true ->
     api.get_positions provider trading_client w
       = (Return (error_value (exn_str e), 500), w')).
Proof.
  repeat split.
  - intros data Hdata. by apply api_py_status_ignores_result.
  - intros e Hdata He. unfold api.get_account_info.
    erewrite try_except_caught; [reflexivity | by apply bind_Raise | done].
  - intros data Hdata. by apply api_py_status_ignores_result.
  - intros e Hdata He. unfold api.get_positions.
    erewrite try_except_caught; [reflexivity | by apply bind_Raise | done].
Qed.

(** ** The command line *)

Section Command_line.
Import cli_parser.
Context (int_of_string : string -> option Z).

Lemma parse_str_cases a given w :
  (exists text, parse_str a given w = (Return text, w) /\
     match given with
     | Some t => text = t /\ forall choices, str_choices a = Some choices -> t ∈ choices
     | None => str_presence a = Default text
     end)
  \/
  (parse_str a given w = (Raise (SystemExit 2), w) /\
     match given with
     | Some t => exists choices, str_choices a = Some choices /\ t ∉ choices
     | None => str_presence a = Required
     end).
Proof.
  unfold parse_str. destruct given as [t|].
  - destruct (str_choices a) as [choices|].
    + case_bool_decide.
      * left. exists t. split; [done|]. split; [done|]. by intros ? [= <-].
      * right. split; [done|]. by exists choices.
    + left. exists t. by repeat split.
  - destruct (str_presence a) as [|v].
    + by right.
    + left. by exists v.
Qed.

Lemma parse_int_cases a given w :
  (exists n, parse_int int_of_string a given w = (Return n, w) /\
     match given with
     | Some t => int_of_string t = Some n
     | None => int_presence a = Default n
     end)
  \/
  (parse_int int_of_string a given w = (Raise (SystemExit 2), w) /\
     match given with
     | Some t => int_of_string t = None
     | None => int_presence a = Required
     end).
Proof.
  unfold parse_int. destruct given as [t|].
  - destruct (int_of_string t) as [n|] eqn:Hn.
    + left. by exists n.
    + by right.
  - destruct (int_presence a) as [|v].
    + by right.
    + left. by exists v.
Qed.

(** [parse_args] returns or leaves with exit status 2; it prints nothing
    and sends nothing. *)
Lemma parse_args_cases line w :
  (exists cmd, parse_args int_of_string line w = (Return cmd, w)) \/
  parse_args int_of_string line w = (Raise (SystemExit 2), w).
Proof.
  destruct line as [| | |status limit|symbol qty side type tif]; cbn [parse_args].
  - by right.
  - left. by eexists.
  - left. by eexists.
  - destruct (parse_str_cases arg_status status w) as [(s & Hs & _)|[Hs _]];
      [erewrite bind_Return by exact Hs | right; by apply bind_Raise].
    destruct (parse_int_cases arg_limit limit w) as [(n & Hn & _)|[Hn _]];
      [erewrite bind_Return by exact Hn | right; by apply bind_Raise].
    left. by eexists.
  - destruct (parse_str_cases arg_symbol symbol w) as [(s & Hs & _)|[Hs _]];
      [erewrite bind_Return by exact Hs | right; by apply bind_Raise].
    destruct (parse_int_cases arg_qty qty w) as [(n & Hn & _)|[Hn _]];
      [erewrite bind_Return by exact Hn | right; by apply bind_Raise].
    destruct (parse_str_cases arg_side side w) as [(sd & Hsd & _)|[Hsd _]];
      [erewrite bind_Return by exact Hsd | right; by apply bind_Raise].
    destruct (parse_str_cases arg_type type w) as [(ty & Hty & _)|[Hty _]];
      [erewrite bind_Return by exact Hty | right; by apply bind_Raise].
    destruct (parse_str_cases arg_time_in_force tif w) as [(t & Ht & _)|[Ht _]];
      [erewrite bind_Return by exact Ht | right; by apply bind_Raise].
    left. by eexists.
Qed.

End Command_line.

Section Command_line_results.
Import cli_parser.
Context (int_of_string : string -> option Z).

Ltac parse_step Hparse cases x Hx Hinfo :=
  let Hfail := fresh "Hfail" in
  destruct cases as [(x & Hx & Hinfo)|[Hfail _]];
  [ erewrite bind_Return in Hparse by exact Hx
  | erewrite bind_Raise in Hparse by exact Hfail; discriminate Hparse ].

(** A command that [parse_args] returns was not refused, and its options
    are among the declared choices. *)
Lemma parse_args_Return line w cmd w' :
  parse_args int_of_string line w = (Return cmd, w') ->
  w' = w /\ ~ rejected int_of_string line /\ valid_command cmd.
Proof.
  destruct line as [| | |status limit|symbol qty side type tif];
    cbn [parse_args rejected]; intros Hparse.
  - discriminate Hparse.
  - injection Hparse as <- <-. split; [done|]. split; [intros []|exact I].
  - injection Hparse as <- <-. split; [done|]. split; [intros []|exact I].
  - parse_step Hparse (parse_str_cases arg_status status w) s Hs Hstatus.
    parse_step Hparse (parse_int_cases int_of_string arg_limit limit w) n Hn Hlimit.
    injection Hparse as <- <-. split; [done|]. split.
    + intros [(t & -> & Hout)|(t & -> & Hno)].
      * destruct Hstatus as [_ Hin]. exact (Hout (Hin _ eq_refl)).
      * congruence.
    + cbn. destruct status as [t|].
      * destruct Hstatus as [-> Hin]. by apply Hin.
      * injection Hstatus as <-. in_literal_list.
  - parse_step Hparse (parse_str_cases arg_symbol symbol w) s Hs Hsymbol.
    parse_step Hparse (parse_int_cases int_of_string arg_qty qty w) n Hn Hqty.
    parse_step Hparse (parse_str_cases arg_side side w) sd Hsd Hside.
    parse_step Hparse (parse_str_cases arg_type type w) ty Hty Htype.
    parse_step Hparse (parse_str_cases arg_time_in_force tif w) t Ht Htif.
    injection Hparse as <- <-. split; [done|]. split.
    + intros [->|[->|[->|[(x & -> & Hno)|[(x & -> & Hout)|[(x & -> & Hout)|(x & -> & Hout)]]]]]];
        try discriminate.
      * congruence.
      * destruct Hside as [_ Hin]. exact (Hout (Hin _ eq_refl)).
      * destruct Htype as [_ Hin]. exact (Hout (Hin _ eq_refl)).
      * destruct Htif as [_ Hin]. exact (Hout (Hin _ eq_refl)).
    + cbn. repeat split.
      * destruct side as [x|]; [|discriminate]. destruct Hside as [-> Hin]. by apply Hin.
      * destruct type as [x|].
        -- destruct Htype as [-> Hin]. by apply Hin.
        -- injection Htype as <-. in_literal_list.
      * destruct tif as [x|].
        -- destruct Htif as [-> Hin]. by apply Hin.
        -- injection Htif as <-. in_literal_list.
Qed.

End Command_line_results.

(** X12.  What [parse_args] makes of the options of the two orders
    commands when it refuses none of them: each option given is taken as
    given ([--limit] and [--qty] through [int]), and an option left out
    takes its default: status [open] and limit 50 for [orders list], type
    [market] and time in force [gtc] for [orders place]. *)
Theorem parse_args_fills_defaults (int_of_string : string -> option Z) (w : world) :
  (forall status limit,
     ~ rejected int_of_string (cli_parser.OrdersList status limit) ->
     cli_parser.parse_args int_of_string (cli_parser.OrdersList status limit) w =
       (Return (CmdOrdersList
                  (mk_list_args (default "open" status)
                     (default 50 (limit ≫= int_of_string)))), w))
  /\
  (forall symbol qty side type time_in_force,
     ~ rejected int_of_string
         (cli_parser.OrdersPlace symbol qty side type time_in_force) ->
     exists s n sd,
       symbol = Some s /\ qty ≫= int_of_string = Some n /\ side = Some sd /\
       cli_parser.parse_args int_of_string
         (cli_parser.OrdersPlace symbol qty side type time_in_force) w =
         (Return (CmdOrdersPlace
                    (mk_place_args s n sd (default "market" type)
                       (default "gtc" time_in_force))), w)).
Proof.
  split.
  - intros status limit Hok.
    destruct (parse_args_cases int_of_string (cli_parser.OrdersList status limit) w)
      as [[cmd Hcmd]|Hfail].
    + rewrite Hcmd. revert Hcmd. cbn [cli_parser.parse_args].
      unfold cli_parser.parse_str, cli_parser.parse_int, bind, ret.
      destruct status as [s|], limit as [t|]; cbn;
        repeat (case_bool_decide || case_match); intros; simplify_eq; done.
    + exfalso. apply Hok. revert Hfail. cbn [cli_parser.parse_args rejected].
      unfold cli_parser.parse_str, cli_parser.parse_int, bind, ret, outside, no_integer.
      destruct status as [s|], limit as [t|]; cbn;
        repeat (case_bool_decide || case_match); intros; simplify_eq; eauto.
  - intros symbol qty side type tif Hok.
    destruct (parse_args_cases int_of_string
                (cli_parser.OrdersPlace symbol qty side type tif) w)
      as [[cmd Hcmd]|Hfail].
    + revert Hcmd. cbn [cli_parser.parse_args].
      unfold cli_parser.parse_str, cli_parser.parse_int, bind, ret.
      destruct symbol as [s|], qty as [q|], side as [sd|], type as [ty|], tif as [t|]; cbn;
        repeat (case_bool_decide || case_match); intros; simplify_eq;
        by eexists _, _, _.
    + exfalso. apply Hok. revert Hfail. cbn [cli_parser.parse_args rejected].
      unfold cli_parser.parse_str, cli_parser.parse_int, bind, ret, outside, no_integer.
      destruct symbol as [s|], qty as [q|], side as [sd|], type as [ty|], tif as [t|]; cbn;
        repeat (case_bool_decide || case_match); intros; simplify_eq; eauto 10.
Qed.

(** X13.  Every command that [parse_args] hands to [main] has its options
    among the declared choices: a status among [open], [closed], [all]; a
    side among [buy], [sell]; a type among [market], [limit]; a time in
    force among [day], [gtc], [opg].  Parsing prints nothing and sends
    nothing. *)
Theorem parse_args_returns_valid_commands (int_of_string : string -> option Z)
    (line : cli_parser.command_line) (w : world) (cmd : command) (w' : world) :
  cli_parser.parse_args int_of_string line w = (Return cmd, w') ->
  valid_command cmd /\ w' = w.
Proof.
  intros Hparse.
  destruct (parse_args_Return int_of_string line w cmd w' Hparse) as (-> & _ & Hvalid).
  done.
Qed.

(** X14.  A command line that [argparse] refuses ends the program with exit
    status 2 before anything else happens: nothing is printed on standard
    output, the credentials are not looked up (so their absence is not
    reported), and no request is sent. *)
Theorem refused_command_line_exits_first `{PyRuntime} (int_of_string : string -> option Z)
    (provider : Provider) (environ : gmap string string)
    (line : cli_parser.command_line) (w : world) :
  rejected int_of_string line ->
  cli_parser.main_from_command_line int_of_string provider environ line w
    = (Raise (SystemExit 2), w).
Proof.
  intros Hrejected. unfold cli_parser.main_from_command_line.
  apply bind_Raise.
  destruct (parse_args_cases int_of_string line w) as [[cmd Hcmd]|Hfail]; [|done].
  by destruct (parse_args_Return int_of_string line w cmd w Hcmd) as (_ & Hok & _).
Qed.

(** ** Start-up *)

(** X15.  [setup_api_client] looks the key identifier up first: when it is
    missing, the message names [APCA_API_KEY_ID], whether or not the secret
    is there too; [APCA_API_SECRET_KEY] is named only when the identifier is
    present.  Only one name is ever reported, and [APCA_API_BASE_URL] plays
    no part in a failure. *)
Theorem setup_api_client_reports_first_missing (environ : gmap string string)
    (w : world) :
  (environ !! "APCA_API_KEY_ID" = None ->
   setup_api_client environ w =
     (Raise (SystemExit 1), printed [missing_message "APCA_API_KEY_ID"] w))
  /\
  (is_Some (environ !! "APCA_API_KEY_ID") ->
   environ !! "APCA_API_SECRET_KEY" = None ->
   setup_api_client environ w =
     (Raise (SystemExit 1), printed [missing_message "APCA_API_SECRET_KEY"] w)).
Proof.
  split.
  - intros Hk. by apply setup_api_client_no_key.
  - intros [k Hk] Hs. by apply setup_api_client_no_secret with k.
Qed.

(** X16.  [Alpaca.py] makes its session while it is loaded.  Without one of
    the two credentials the load ends with exit status 1 after the message
    of [setup_api_client], so the server never serves a route; with both,
    the load gives the session its routes use, and sends nothing to the
    provider. *)
Theorem Alpaca_py_loads_with_credentials (environ : gmap string string) (w : world) :
  (environ !! "APCA_API_KEY_ID" = None \/ environ !! "APCA_API_SECRET_KEY" = None ->
   exists line,
     Alpaca.load environ w = (Raise (SystemExit 1), printed [line] w))
  /\
  (forall k s,
     environ !! "APCA_API_KEY_ID" = Some k ->
     environ !! "APCA_API_SECRET_KEY" = Some s ->
     Alpaca.load environ w =
       (Return (mk_REST k s (environ_get environ "APCA_API_BASE_URL"
                               "https://paper-api.alpaca.markets")), w)).
Proof.
  rewrite Alpaca_py_load. split.
  - intros Hmissing.
    destruct (environ !! "APCA_API_KEY_ID") as [k|] eqn:Hk.
    + destruct Hmissing as [?|Hs]; [discriminate|].
      eexists. by apply setup_api_client_no_secret with k.
    + eexists. by apply setup_api_client_no_key.
  - intros k s Hk Hs. by apply setup_api_client_ok.
Qed.

(** * The theorems on the sample inputs *)

Import DecimalRuntime Samples.


(** The four operations against a provider that rejects every call with
    "insufficient buying power". *)
Lemma provider_failure_is_caught_witness :
  let msg := "insufficient buying power" in
  let orders := mk_list_args "open" 50 in
  get_account_status_data (rejecting msg) api0 w0
    = (Return (error_value msg), sent GetAccount w0) /\
  list_positions_data (rejecting msg) api0 w0
    = (Return (error_value msg), sent ListPositions w0) /\
  place_order (rejecting msg) api0 buy_10_aapl w0
    = (Return PNone,
       printed [place_order_banner buy_10_aapl; "🔴 API Error placing order: " +:+ msg]
         (sent (SubmitOrder "AAPL" 10 "buy" "market" "gtc") w0)) /\
  list_orders (rejecting msg) api0 orders w0
    = (Return PNone,
       printed [list_orders_banner orders; "🔴 API Error listing orders: " +:+ msg]
         (sent (ListOrders "open" 50) w0)).
Proof.
  intros msg orders.
  destruct (provider_failure_is_caught (rejecting msg) api0 msg w0)
    as (Haccount & Hpositions & Hplace & Hlist).
  split; [apply Haccount; reflexivity|].
  split; [apply Hpositions; reflexivity|].
  split; [apply (Hplace buy_10_aapl); reflexivity|].
  apply (Hlist orders); reflexivity.
Defined.

(** C1 as first stated fails for order placement: on "insufficient buying
    power" [place_order] returns [None], not the error value. *)
Lemma place_order_returns_no_error_value :
  fst (place_order (rejecting "insufficient buying power") api0 buy_10_aapl w0)
    = Return PNone /\
  fst (place_order (rejecting "insufficient buying power") api0 buy_10_aapl w0)
    <> Return (error_value "insufficient buying power").
Proof.
  assert (fst (place_order (rejecting "insufficient buying power") api0 buy_10_aapl w0)
          = Return PNone) as Hresult by reflexivity.
  split; [exact Hresult|]. rewrite Hresult. discriminate.
Qed.

(** C3 as first stated fails: a portfolio value "abc" and a quantity "N/A"
    make the data functions raise [ValueError]; no error value is returned. *)
Lemma malformed_number_is_raised :
  get_account_status_data malformed api0 w0
    = (Raise (ValueError "could not convert string to float: 'abc'"), sent GetAccount w0) /\
  list_positions_data malformed api0 w0
    = (Raise (ValueError "could not convert string to float: 'N/A'"), sent ListPositions w0) /\
  ~ (exists msg, fst (get_account_status_data malformed api0 w0) = Return (error_value msg)) /\
  ~ (exists msg, fst (list_positions_data malformed api0 w0) = Return (error_value msg)).
Proof.
  assert (get_account_status_data malformed api0 w0
          = (Raise (ValueError "could not convert string to float: 'abc'"),
             sent GetAccount w0)) as Haccount by reflexivity.
  assert (list_positions_data malformed api0 w0
          = (Raise (ValueError "could not convert string to float: 'N/A'"),
             sent ListPositions w0)) as Hpositions by reflexivity.
  split; [exact Haccount|]. split; [exact Hpositions|].
  rewrite Haccount, Hpositions. split; intros [msg Heq]; discriminate Heq.
Qed.

Lemma unparseable_field_raises_witness :
  (exists e',
     is_field_failure e' = true /\
     is_APIError e' = false /\
     get_account_status_data malformed api0 w0 = (Raise e', sent GetAccount w0)) /\
  (exists e',
     is_field_failure e' = true /\
     is_APIError e' = false /\
     list_positions_data malformed api0 w0 = (Raise e', sent ListPositions w0)).
Proof.
  destruct (unparseable_field_raises malformed api0 w0) as [Haccount Hpositions].
  split.
  - apply (Haccount (account "abc") "portfolio_value" (PStr "abc")
             (ValueError "could not convert string to float: 'abc'")).
    + reflexivity.
    + in_literal_list.
    + reflexivity.
    + reflexivity.
  - apply (Hpositions [position "N/A" "0.0532"] (position "N/A" "0.0532") "qty" (PStr "N/A")
             (ValueError "could not convert string to float: 'N/A'")).
    + reflexivity.
    + in_literal_list.
    + in_literal_list.
    + reflexivity.
    + reflexivity.
Defined.

(** A [ValueError] from a field and a transport error from the provider,
    each leaving the operation it was raised in. *)
Lemma other_failures_propagate_witness :
  let bad_float := ValueError "could not convert string to float: 'abc'" in
  let bad_qty := ValueError "could not convert string to float: 'N/A'" in
  let refused := OtherException "ConnectionError" "connection refused" in
  let orders := mk_list_args "open" 50 in
  get_account_status_data malformed api0 w0 = (Raise bad_float, sent GetAccount w0) /\
  list_positions_data malformed api0 w0 = (Raise bad_qty, sent ListPositions w0) /\
  place_order unreachable api0 buy_10_aapl w0
    = (Raise refused,
       printed [place_order_banner buy_10_aapl]
         (sent (SubmitOrder "AAPL" 10 "buy" "market" "gtc") w0)) /\
  list_orders unreachable api0 orders w0
    = (Raise refused,
       printed [list_orders_banner orders] (sent (ListOrders "open" 50) w0)).
Proof.
  intros bad_float bad_qty refused orders.
  split; [|split; [|split]].
  - destruct (other_failures_propagate malformed api0 bad_float w0 (sent GetAccount w0)
                eq_refl) as (Haccount & _).
    apply Haccount. reflexivity.
  - destruct (other_failures_propagate malformed api0 bad_qty w0 (sent ListPositions w0)
                eq_refl) as (_ & Hpositions & _).
    apply Hpositions. reflexivity.
  - destruct (other_failures_propagate unreachable api0 refused w0
                (printed [place_order_banner buy_10_aapl]
                   (sent (SubmitOrder "AAPL" 10 "buy" "market" "gtc") w0))
                eq_refl) as (_ & _ & Hplace & _).
    apply (Hplace buy_10_aapl). reflexivity.
  - destruct (other_failures_propagate unreachable api0 refused w0
                (printed [list_orders_banner orders] (sent (ListOrders "open" 50) w0))
                eq_refl) as (_ & _ & _ & Hlist).
    apply (Hlist orders). reflexivity.
Defined.

(** The secret alone is set: exit status 1 and a line naming
    [APCA_API_KEY_ID]; both set: a session. *)
Lemma setup_api_client_fails_fast_witness :
  (exists name,
     (name = "APCA_API_KEY_ID" \/ name = "APCA_API_SECRET_KEY") /\
     env_secret_only !! name = None /\
     setup_api_client env_secret_only w0 =
       (Raise (SystemExit 1), mk_world (stdout w0 ++ [missing_message name]) (calls w0)) /\
     forall cmd,
       main healthy env_secret_only cmd w0 =
         (Raise (SystemExit 1), mk_world (stdout w0 ++ [missing_message name]) (calls w0)))
  /\
  (exists url, setup_api_client env_apca w0 = (Return (mk_REST "PK123" "secret" url), w0)).
Proof.
  split.
  - destruct (setup_api_client_fails_fast healthy env_secret_only w0) as [Hmissing _].
    apply Hmissing. left. reflexivity.
  - destruct (setup_api_client_fails_fast healthy env_apca w0) as [_ Hpresent].
    apply (Hpresent "PK123" "secret"); reflexivity.
Defined.

(** C6 as first stated fails: an environment with [API_KEY_ID] and
    [API_SECRET_KEY] set is refused, and one that agrees with it on the three
    names of the claim is accepted; the names read are the [APCA_] ones. *)
Lemma plain_names_are_not_read :
  env_plain !! "API_KEY_ID" = env_both !! "API_KEY_ID" /\
  env_plain !! "API_SECRET_KEY" = env_both !! "API_SECRET_KEY" /\
  env_plain !! "API_BASE_URL" = env_both !! "API_BASE_URL" /\
  setup_api_client env_plain w0
    = (Raise (SystemExit 1), printed [missing_message "APCA_API_KEY_ID"] w0) /\
  setup_api_client env_both w0
    = (Return (mk_REST "PK123" "secret" "https://paper-api.alpaca.markets"), w0).
Proof. repeat split; reflexivity. Qed.

Lemma setup_api_client_reads_apca_names_witness :
  setup_api_client env_apca w0 = setup_api_client env_both w0 /\
  setup_api_client env_apca w0
    = (Return (mk_REST "PK123" "secret" "https://paper-api.alpaca.markets"), w0) /\
  setup_api_client (<["APCA_API_BASE_URL" := "https://api.alpaca.markets"]> env_apca) w0
    = (Return (mk_REST "PK123" "secret" "https://api.alpaca.markets"), w0).
Proof.
  split; [|split].
  - destruct (setup_api_client_reads_apca_names env_apca env_both w0) as (Hsame & _ & _).
    apply Hsame; reflexivity.
  - destruct (setup_api_client_reads_apca_names env_apca env_apca w0) as (_ & Hdefault & _).
    apply (Hdefault "PK123" "secret"); reflexivity.
  - destruct (setup_api_client_reads_apca_names
                (<["APCA_API_BASE_URL" := "https://api.alpaca.markets"]> env_apca)
                env_apca w0) as (_ & _ & Hurl).
    apply (Hurl "PK123" "secret"); reflexivity.
Defined.

(** C7 as first stated fails: with [--limit 0] and with [--limit -5] the
    request goes out to the provider, carrying that limit. *)
Lemma non_positive_limit_is_sent :
  calls (snd (list_orders healthy api0 (mk_list_args "open" 0) w0))
    = [ListOrders "open" 0] /\
  calls (snd (list_orders healthy api0 (mk_list_args "open" (-5)) w0))
    = [ListOrders "open" (-5)] /\
  main healthy env_apca (CmdOrdersList (mk_list_args "open" 0)) w0
    = (Return PNone,
       mk_world [list_orders_banner (mk_list_args "open" 0);
                 "No orders found with status 'open'."]
                [ListOrders "open" 0]).
Proof. repeat split; reflexivity. Qed.

(** One position with the fraction "0.0532": the dictionary holds 0.0532,
    which is not 5.32. *)
Lemma unrealized_plpc_is_stored_unscaled_witness :
  (exists rows,
     fst (list_positions_data healthy api0 w0) = Return (PList rows) /\
     Forall2 (fun pos row => stored_as_float pos row "unrealized_plpc")
       [position "10" "0.0532"] rows /\
     Forall (fun row =>
               py_getitem row "unrealized_plpc" = Return (PFloat (mk_decimal 532 (-4))) /\
               py_getitem row "unrealized_plpc" <> Return (PFloat (mk_decimal 532 (-2))))
       rows) /\
  (exists rows,
     list_positions_data healthy api0 w0 = (Return (PList rows), sent ListPositions w0)).
Proof.
  destruct (unrealized_plpc_is_stored_unscaled healthy api0 w0 [position "10" "0.0532"]
              eq_refl) as [Hstored Hreturns].
  split.
  - destruct (Hstored (PList healthy_rows) (sent ListPositions w0) eq_refl)
      as (rows & Hrows & Hall).
    exists rows. injection Hrows as <-.
    split; [reflexivity|]. split; [exact Hall|].
    repeat constructor. discriminate.
  - apply Hreturns. intros pos Hpos.
    apply list_elem_of_singleton in Hpos as ->.
    split; [by eexists|]. intros f Hf. unfold position_numeric_fields in Hf.
    repeat (apply elem_of_cons in Hf as [->|Hf];
            [eexists _, _; split; reflexivity|]).
    by apply elem_of_nil in Hf.
Defined.

(** C9 as first stated fails: on a healthy account the command ends with the
    [ValueError] of the format specification, after three lines, and not with
    a [KeyError] for [daytrade_count]. *)
Lemma account_command_raises_ValueError :
  get_account_status healthy api0 w0
    = (Raise invalid_amount_spec,
       printed (account_lines (PStr "acct-1") (PStr "ACTIVE") (PStr "USD"))
         (sent GetAccount w0)) /\
  fst (get_account_status healthy api0 w0) <> Raise (KeyError "daytrade_count").
Proof.
  assert (get_account_status healthy api0 w0
          = (Raise invalid_amount_spec,
             printed (account_lines (PStr "acct-1") (PStr "ACTIVE") (PStr "USD"))
               (sent GetAccount w0))) as Hresult by reflexivity.
  split; [exact Hresult|]. rewrite Hresult. discriminate.
Qed.

Lemma account_command_success_branch_fails_witness :
  (py_getitem healthy_account "daytrade_count" = Raise (KeyError "daytrade_count") /\
   exists id status currency,
     py_getitem healthy_account "id" = Return id /\
     py_getitem healthy_account "status" = Return status /\
     py_getitem healthy_account "currency" = Return currency /\
     get_account_status healthy api0 w0 =
       (Raise invalid_amount_spec,
        printed (account_lines id status currency) (sent GetAccount w0)))
  /\
  (exists msg,
     error_value "forbidden" = error_value msg /\
     get_account_status (rejecting "forbidden") api0 w0 =
       (Return PNone,
        printed ["🔴 API Error fetching account: " +:+ msg] (sent GetAccount w0))).
Proof.
  split.
  - destruct (account_command_success_branch_fails healthy api0 w0 healthy_account
                (sent GetAccount w0) eq_refl) as [Hsuccess _].
    apply Hsuccess. reflexivity.
  - destruct (account_command_success_branch_fails (rejecting "forbidden") api0 w0
                (error_value "forbidden") (sent GetAccount w0) eq_refl) as [_ Herror].
    apply Herror. reflexivity.
Defined.

(** * The further properties on the sample inputs *)

Import MoreSamples.

Lemma get_account_status_data_complete_witness :
  get_account_status_data healthy api0 w0 = (Return healthy_account, sent GetAccount w0).
Proof.
  apply (get_account_status_data_complete healthy api0 w0 (account "100000")
           (PStr "acct-1") (PStr "ACTIVE") (PStr "USD") (PBool false)
           (PStr "100000") (PStr "200000") (PStr "100000") (PStr "100000"));
    reflexivity.
Defined.

Lemma get_account_status_data_returns_whole_witness :
  (exists msg,
     provider_get_account healthy api0 = Raise (APIError msg) /\
     healthy_account = error_value msg)
  \/
  (exists account id status currency pv bp cash eq pdt,
     provider_get_account healthy api0 = Return account /\
     healthy_account = account_status id status currency pv bp cash eq pdt /\
     account !! "id" = Some id /\
     account !! "status" = Some status /\
     account !! "currency" = Some currency /\
     account !! "pattern_day_trader" = Some pdt /\
     forall f, f ∈ account_numeric_fields -> stored_as_float account healthy_account f).
Proof.
  apply (get_account_status_data_returns_whole healthy api0 w0 healthy_account
           (sent GetAccount w0)).
  reflexivity.
Defined.

Lemma list_positions_data_rows_witness :
  exists rows,
    PList healthy_rows = PList rows /\
    length rows = length [position "10" "0.0532"] /\
    ([position "10" "0.0532"] = [] -> rows = []) /\
    Forall2 (fun pos row =>
               (exists symbol, pos !! "symbol" = Some symbol /\
                               py_getitem row "symbol" = Return symbol) /\
               forall f, f ∈ position_numeric_fields -> stored_as_float pos row f)
      [position "10" "0.0532"] rows.
Proof.
  apply (list_positions_data_rows healthy api0 w0 [position "10" "0.0532"]
           (PList healthy_rows) (sent ListPositions w0)); reflexivity.
Defined.

Lemma list_positions_outcomes_witness :
  list_positions (rejecting "forbidden") api0 w0 =
    (Return PNone,
     printed ["🔴 API Error listing positions: " +:+ "forbidden"] (sent ListPositions w0)) /\
  list_positions with_orders api0 w0 =
    (Return PNone, printed ["No open positions found."] (sent ListPositions w0)) /\
  list_positions healthy api0 w0 =
    (Raise invalid_amount_spec, printed positions_lines (sent ListPositions w0)).
Proof.
  split; [|split].
  - destruct (list_positions_outcomes (rejecting "forbidden") api0 w0) as (Herror & _ & _).
    apply Herror. reflexivity.
  - destruct (list_positions_outcomes with_orders api0 w0) as (_ & Hnone & _).
    apply Hnone. reflexivity.
  - destruct (list_positions_outcomes healthy api0 w0) as (_ & _ & Hrows).
    apply (Hrows (hd PNone healthy_rows) (tl healthy_rows) (sent ListPositions w0)).
    reflexivity.
Defined.

Lemma sample_orders_are_texts :
  Forall order_of_texts [echo_order "AAPL" 10 "buy" "market"; sparse_order].
Proof.
  repeat constructor; intros attr Hattr; unfold order_attributes in Hattr;
    repeat (apply elem_of_cons in Hattr as [->|Hattr];
            [eexists; split; [reflexivity | exact I]|]);
    by apply elem_of_nil in Hattr.
Qed.

(** Two orders, the second without symbol and with an empty status. *)
Lemma list_orders_table_witness :
  list_orders with_orders api0 all_orders w0 =
    (Return PNone,
     printed
       [list_orders_banner all_orders;
        orders_header_line;
        PyStr.repeat_char "-" 80;
        "order-1                        AAPL       10       buy      market     accepted    ";
        "order-2                        N/A        5        sell     limit      N/A         "]
       (sent (ListOrders "all" 5) w0)) /\
  list_orders healthy api0 all_orders w0 =
    (Return PNone,
     printed [list_orders_banner all_orders; "No orders found with status 'all'."]
       (sent (ListOrders "all" 5) w0)).
Proof.
  split.
  - apply (list_orders_table with_orders api0 all_orders w0
             [echo_order "AAPL" 10 "buy" "market"; sparse_order]).
    + reflexivity.
    + exact sample_orders_are_texts.
  - apply (list_orders_table healthy api0 all_orders w0 []).
    + reflexivity.
    + constructor.
Defined.

Lemma place_order_confirmation_witness :
  place_order healthy api0 buy_10_aapl w0 =
    (Return PNone,
     printed (place_order_banner buy_10_aapl ::
              confirmation_lines (PStr "order-1") (PStr "AAPL") (PStr "10") (PStr "buy")
                (PStr "market") (PStr "accepted"))
       (sent (SubmitOrder "AAPL" 10 "buy" "market" "gtc") w0)).
Proof.
  apply (place_order_confirmation healthy api0 buy_10_aapl w0
           (echo_order "AAPL" 10 "buy" "market")); reflexivity.
Defined.

Lemma main_sends_one_request_witness :
  calls (snd (main healthy env_apca (CmdOrdersPlace buy_10_aapl) w0))
    = calls w0 ++ [SubmitOrder "AAPL" 10 "buy" "market" "gtc"] /\
  calls (snd (main healthy env_apca CmdPositions w0)) = calls w0 ++ [ListPositions].
Proof.
  split.
  - apply (main_sends_one_request healthy env_apca (CmdOrdersPlace buy_10_aapl) w0);
      eexists; reflexivity.
  - apply (main_sends_one_request healthy env_apca CmdPositions w0);
      eexists; reflexivity.
Defined.

Lemma Alpaca_py_routes_answer_witness :
  Alpaca.get_account_info (rejecting "forbidden") api0 w0
    = (Return (error_value "forbidden", 500), sent GetAccount w0) /\
  Alpaca.get_account_info healthy api0 w0
    = (Return (healthy_account, 200), sent GetAccount w0) /\
  Alpaca.get_account_info malformed api0 w0
    = (Raise (ValueError "could not convert string to float: 'abc'"), sent GetAccount w0) /\
  Alpaca.get_positions (rejecting "forbidden") api0 w0
    = (Return (error_value "forbidden", 500), sent ListPositions w0) /\
  Alpaca.get_positions healthy api0 w0
    = (Return (PList healthy_rows, 200), sent ListPositions w0) /\
  Alpaca.get_positions malformed api0 w0
    = (Raise (ValueError "could not convert string to float: 'N/A'"), sent ListPositions w0).
Proof.
  destruct (Alpaca_py_routes_answer (rejecting "forbidden") api0 w0 (sent GetAccount w0))
    as (Haccount_error & _).
  destruct (Alpaca_py_routes_answer healthy api0 w0 (sent GetAccount w0))
    as (_ & Haccount & _).
  destruct (Alpaca_py_routes_answer malformed api0 w0 (sent GetAccount w0))
    as (_ & _ & Haccount_raise & _).
  destruct (Alpaca_py_routes_answer (rejecting "forbidden") api0 w0 (sent ListPositions w0))
    as (_ & _ & _ & Hpositions_error & _).
  destruct (Alpaca_py_routes_answer healthy api0 w0 (sent ListPositions w0))
    as (_ & _ & _ & _ & Hpositions & _).
  destruct (Alpaca_py_routes_answer malformed api0 w0 (sent ListPositions w0))
    as (_ & _ & _ & _ & _ & Hpositions_raise).
  split; [apply Haccount_error; reflexivity|].
  split; [apply Haccount; [reflexivity | discriminate]|].
  split; [apply Haccount_raise; reflexivity|].
  split; [apply Hpositions_error; reflexivity|].
  split; [apply Hpositions; [reflexivity | discriminate]|].
  apply Hpositions_raise; reflexivity.
Defined.

Lemma api_py_routes_answer_witness :
  api.get_account_info healthy api0 w0
    = (Return (healthy_account, 200), sent GetAccount w0) /\
  api.get_account_info malformed api0 w0
    = (Return (error_value "could not convert string to float: 'abc'", 500),
       sent GetAccount w0) /\
  api.get_positions healthy api0 w0
    = (Return (PList healthy_rows, 200), sent ListPositions w0) /\
  api.get_positions malformed api0 w0
    = (Return (error_value "could not convert string to float: 'N/A'", 500),
       sent ListPositions w0).
Proof.
  destruct (api_py_routes_answer healthy api0 w0 (sent GetAccount w0)) as (Haccount & _).
  destruct (api_py_routes_answer malformed api0 w0 (sent GetAccount w0))
    as (_ & Haccount_raise & _).
  destruct (api_py_routes_answer healthy api0 w0 (sent ListPositions w0))
    as (_ & _ & Hpositions & _).
  destruct (api_py_routes_answer malformed api0 w0 (sent ListPositions w0))
    as (_ & _ & _ & Hpositions_raise).
  split; [apply Haccount; reflexivity|].
  split; [apply (Haccount_raise
                   (ValueError "could not convert string to float: 'abc'"));
          reflexivity|].
  split; [apply Hpositions; reflexivity|].
  apply (Hpositions_raise (ValueError "could not convert string to float: 'N/A'"));
    reflexivity.
Defined.

Ltac not_in_literal_list :=
  let Hin := fresh "Hin" in
  intros Hin;
  repeat (apply elem_of_cons in Hin as [Hin|Hin]; [discriminate Hin|]);
  by apply elem_of_nil in Hin.

(** [orders list --limit -5] and [orders place --symbol AAPL --qty 10 --side buy] *)
Lemma parse_args_fills_defaults_witness :
  cli_parser.parse_args decimal_int_of_string
    (cli_parser.OrdersList None (Some "-5")) w0
    = (Return (CmdOrdersList (mk_list_args "open" (-5))), w0) /\
  exists s n sd,
    Some "AAPL" = Some s /\ Some "10" ≫= decimal_int_of_string = Some n /\
    Some "buy" = Some sd /\
    cli_parser.parse_args decimal_int_of_string
      (cli_parser.OrdersPlace (Some "AAPL") (Some "10") (Some "buy") None None) w0
      = (Return (CmdOrdersPlace (mk_place_args s n sd "market" "gtc")), w0).
Proof.
  destruct (parse_args_fills_defaults decimal_int_of_string w0) as [Hlist Hplace].
  split.
  - apply (Hlist None (Some "-5")).
    intros [(t & Ht & _)|(t & Ht & Hno)]; [discriminate Ht|].
    injection Ht as <-. vm_compute in Hno. discriminate Hno.
  - apply (Hplace (Some "AAPL") (Some "10") (Some "buy") None None).
    intros [Hs|[Hq|[Hsd|[(t & Ht & Hno)|[(t & Ht & Hout)|[(t & Ht & _)|(t & Ht & _)]]]]]];
      try discriminate.
    + injection Ht as <-. vm_compute in Hno. discriminate Hno.
    + injection Ht as <-. apply Hout. in_literal_list.
Defined.

Lemma parse_args_returns_valid_commands_witness :
  valid_command (CmdOrdersList (mk_list_args "closed" 7)) /\ w0 = w0.
Proof.
  apply (parse_args_returns_valid_commands decimal_int_of_string
           (cli_parser.OrdersList (Some "closed") (Some " 7 ")) w0).
  reflexivity.
Defined.

(** [orders list --status bogus], with no credentials in the environment *)
Lemma refused_command_line_exits_first_witness :
  cli_parser.main_from_command_line decimal_int_of_string healthy ∅
    (cli_parser.OrdersList (Some "bogus") None) w0
    = (Raise (SystemExit 2), w0) /\
  cli_parser.main_from_command_line decimal_int_of_string healthy env_apca
    (cli_parser.OrdersPlace (Some "AAPL") (Some "1.5") (Some "buy") None None) w0
    = (Raise (SystemExit 2), w0).
Proof.
  split.
  - apply (refused_command_line_exits_first decimal_int_of_string healthy ∅
             (cli_parser.OrdersList (Some "bogus") None) w0).
    left. exists "bogus". split; [reflexivity | not_in_literal_list].
  - apply (refused_command_line_exits_first decimal_int_of_string healthy env_apca
             (cli_parser.OrdersPlace (Some "AAPL") (Some "1.5") (Some "buy") None None) w0).
    right. right. right. left. exists "1.5". split; reflexivity.
Defined.

Lemma setup_api_client_reports_first_missing_witness :
  setup_api_client ∅ w0
    = (Raise (SystemExit 1), printed [missing_message "APCA_API_KEY_ID"] w0) /\
  setup_api_client {[ "APCA_API_KEY_ID" := "PK123" ]} w0
    = (Raise (SystemExit 1), printed [missing_message "APCA_API_SECRET_KEY"] w0).
Proof.
  split.
  - destruct (setup_api_client_reports_first_missing ∅ w0) as [Hkey _].
    apply Hkey. reflexivity.
  - destruct (setup_api_client_reports_first_missing {[ "APCA_API_KEY_ID" := "PK123" ]} w0)
      as [_ Hsecret].
    apply Hsecret; [eexists|]; reflexivity.
Defined.

Lemma Alpaca_py_loads_with_credentials_witness :
  (exists line,
     Alpaca.load env_plain w0 = (Raise (SystemExit 1), printed [line] w0)) /\
  Alpaca.load env_apca w0
    = (Return (mk_REST "PK123" "secret"
                 (environ_get env_apca "APCA_API_BASE_URL"
                    "https://paper-api.alpaca.markets")), w0).
Proof.
  split.
  - destruct (Alpaca_py_loads_with_credentials env_plain w0) as [Hmissing _].
    apply Hmissing. left. reflexivity.
  - destruct (Alpaca_py_loads_with_credentials env_apca w0) as [_ Hpresent].
    apply Hpresent; reflexivity.
Defined.
